(** * Access control of hs_access_control/models.py

    A shallow embedding of the privilege model of
    [src/hs_access_control/models.py]: the three grant tables, the
    group and resource flags, the privilege resolver of [ResourceAccess],
    and the check / share / unshare / undo-share methods of [UserAccess].

    Conventions of the embedding.

    - A Django object is named by its primary key, a [nat]; the rows of
      [auth_user], [GroupAccess] and [ResourceAccess] are looked up by it.
    - A privilege is the integer code of [PrivilegeCodes], in [Z], with
      lower codes meaning more privilege, as in the source.
    - A table is the list of its rows in insertion order; a QuerySet is the
      list of rows (or of joined rows) it evaluates to.
    - The source is in the middle of a column rename.  Every grant row has
      the old columns [user], [group], [resource], [grantor] (foreign keys
      to [UserAccess], [GroupAccess] and [ResourceAccess], not null) beside
      the new columns [usernew], [groupnew], [resourcenew], [grantornew]
      (foreign keys to [User], [Group] and [BaseResource]).  The methods
      read and write the new columns, and the fields of a row of the
      embedding are the new columns; in the rows the tables hold, the old
      columns name the same principals.  The [start] timestamp, which no
      method reads, is left out.
    - A [UserAccess] and its [User] have the same key.  They are instances
      of different models all the same, and where a method mixes them
      Django's behaviour is kept: a lookup [grantor=value] with a [User]
      as value raises ValueError when it is built, a [UserAccess] never
      equals a [User], an INSERT that fills only the new columns leaves
      the old ones empty and is refused with IntegrityError, and a model
      constructor refuses a keyword that is no field with TypeError.
    - A method that can raise runs in the monad [M]: it returns a value or
      an exception together with the database it leaves behind; a method
      that only reads is a function of the database. *)

From Stdlib Require Import ZArith List Bool String Lia PeanoNat.
Import ListNotations.

Local Open Scope string_scope.
Local Open Scope Z_scope.

(** ** Exceptions and the database monad *)

Inductive Exception : Type :=
| PermissionDenied (message : string)
| DoesNotExist
| MultipleObjectsReturned
| FieldError
| AttributeError
| ValueError
| IntegrityError
| TypeError.

Inductive Result (A : Type) : Type :=
| Return (a : A)
| Raise (e : Exception).

Arguments Return {A} a.
Arguments Raise {A} e.

(** ** Privilege and command codes *)

Module PrivilegeCodes.
Definition OWNER : Z := 1.
Definition CHANGE : Z := 2.
Definition VIEW : Z := 3.
Definition NONE : Z := 4.
Definition PRIVILEGE_CHOICES : list Z := [OWNER; CHANGE; VIEW].
End PrivilegeCodes.
Import PrivilegeCodes.

Inductive CommandCodes : Type := CHECK | DO.

(** ** Rows *)

Record UserRow : Type := mkUser {
  is_active : bool;
  is_superuser : bool
}.

Record UserGroupPrivilege : Type := mkUGP {
  ugp_privilege : Z;
  ugp_user : nat;
  ugp_group : nat;
  ugp_grantor : nat
}.

Record UserResourcePrivilege : Type := mkURP {
  urp_privilege : Z;
  urp_user : nat;
  urp_resource : nat;
  urp_grantor : nat
}.

Record GroupResourcePrivilege : Type := mkGRP {
  grp_privilege : Z;
  grp_group : nat;
  grp_resource : nat;
  grp_grantor : nat
}.

Record GroupAccessRow : Type := mkGroupAccess {
  ga_active : bool;
  ga_discoverable : bool;
  ga_public : bool;
  ga_shareable : bool
}.

Record ResourceAccessRow : Type := mkResourceAccess {
  ra_active : bool;
  ra_discoverable : bool;
  ra_public : bool;
  ra_shareable : bool;
  ra_published : bool;
  ra_immutable : bool
}.

(** The database: the user, group and resource rows by primary key, the
    primary keys of the groups created so far, and the three grant tables. *)
Record DB : Type := mkDB {
  auth_user : nat -> UserRow;
  gaccess : nat -> GroupAccessRow;
  raccess : nat -> ResourceAccessRow;
  auth_group : list nat;
  ugp : list UserGroupPrivilege;
  urp : list UserResourcePrivilege;
  grp : list GroupResourcePrivilege
}.

Definition set_ugp (t : list UserGroupPrivilege) (db : DB) : DB :=
  mkDB (auth_user db) (gaccess db) (raccess db) (auth_group db) t (urp db) (grp db).

Definition set_urp (t : list UserResourcePrivilege) (db : DB) : DB :=
  mkDB (auth_user db) (gaccess db) (raccess db) (auth_group db) (ugp db) t (grp db).

Definition set_grp (t : list GroupResourcePrivilege) (db : DB) : DB :=
  mkDB (auth_user db) (gaccess db) (raccess db) (auth_group db) (ugp db) (urp db) t.

(** ** The monad of methods that read and write the database and may raise *)

Definition M (A : Type) : Type := DB -> Result A * DB.

Definition ret {A} (a : A) : M A := fun db => (Return a, db).

Definition raise {A} (e : Exception) : M A := fun db => (Raise e, db).

Definition bind {A B} (m : M A) (k : A -> M B) : M B :=
  fun db =>
    match m db with
    | (Return a, db') => k a db'
    | (Raise e, db') => (Raise e, db')
    end.

(** Evaluate a read-only query on the current database. *)
Definition ask {A} (q : DB -> A) : M A := fun db => (Return (q db), db).

Definition modify (f : DB -> DB) : M unit := fun db => (Return tt, f db).

(** [with transaction.atomic()]: an exception leaving the block rolls the
    database back to its state on entry. *)
Definition atomic {A} (m : M A) : M A :=
  fun db =>
    match m db with
    | (Return a, db') => (Return a, db')
    | (Raise e, _) => (Raise e, db)
    end.

(** A method of a check / do pair run for its answer only. *)
Definition lift {A} (r : Result A) : M A := fun db => (r, db).

Declare Scope db_scope.
Delimit Scope db_scope with db.
Notation "x <- m ;; k" := (bind m (fun x => k))
  (at level 61, m at next level, right associativity) : db_scope.
Notation "m ;;; k" := (bind m (fun _ => k))
  (at level 61, right associativity) : db_scope.
Local Open Scope db_scope.

(** ** QuerySets *)

Module QuerySet.
(** [qs.exists()], and the truth value of a QuerySet. *)
Definition exists_ {A} (qs : list A) : bool :=
  match qs with
  | [] => false
  | _ :: _ => true
  end.

Definition count {A} (qs : list A) : Z := Z.of_nat (List.length qs).

(** [Model.objects.get(...)] over the rows matching the lookup. *)
Definition get {A} (qs : list A) : Result A :=
  match qs with
  | [] => Raise DoesNotExist
  | [r] => Return r
  | _ :: _ :: _ => Raise MultipleObjectsReturned
  end.

Definition exclude {A} (p : A -> bool) (qs : list A) : list A :=
  filter (fun r => negb (p r)) qs.

Definition distinct (qs : list nat) : list nat := nodup Nat.eq_dec qs.

(** [x in qs] for a QuerySet of objects named by primary key. *)
Definition contains (x : nat) (qs : list nat) : bool :=
  existsb (Nat.eqb x) qs.

(** [qs.aggregate(models.Min(field))]: [None] over no rows. *)
Definition aggregate_Min (values : list Z) : option Z :=
  match values with
  | [] => None
  | v :: rest => Some (fold_left Z.min rest v)
  end.

(** A lookup [column=value] whose value may be Python's [None]: Django
    compiles [column=None] to [column IS NULL], which holds of no row
    since the column is set in every row. *)
Definition eq_opt (value : option nat) (column : nat) : bool :=
  match value with
  | Some v => Nat.eqb column v
  | None => false
  end.

(** [qs.filter(grantor=value)], [qs.exclude(..., grantor=value)] and
    [qs.get(..., grantor=value)] with a [User] as [value]: [grantor] is
    the old column, a foreign key to [UserAccess], and Django refuses an
    instance of another model when it builds the lookup (ValueError:
    Cannot query: Must be "UserAccess" instance); no row is read. *)
Definition lookup_grantor_User {A} (qs : list A) : Result (list A) :=
  Raise ValueError.

(** [a == b] for a [UserAccess] and a [User]: instances of different
    models are not equal, whatever their keys. *)
Definition eq_across_models (a b : nat) : bool := false.

(** [x in qs] for a [UserAccess] [x] and a QuerySet of [User]. *)
Definition contains_across_models (x : nat) (qs : list nat) : bool :=
  existsb (eq_across_models x) qs.
End QuerySet.
Import QuerySet.

(** ** GroupAccess *)

Module GroupAccess.

(** [User.objects.filter(u2ugpnew__groupnew=self.group).distinct()] *)
Definition members (db : DB) (self : nat) : list nat :=
  distinct (map ugp_user (filter (fun r => Nat.eqb (ugp_group r) self) (ugp db))).

Definition get_members := members.

Definition get_owners (db : DB) (self : nat) : list nat :=
  distinct (map ugp_user
    (filter (fun r => Nat.eqb (ugp_group r) self && (ugp_privilege r =? OWNER)) (ugp db))).

Definition get_number_of_owners (db : DB) (self : nat) : Z :=
  count (get_owners db self).

Definition get_number_of_owner_records (db : DB) (self : nat) : Z :=
  count (filter (fun r => Nat.eqb (ugp_group r) self && (ugp_privilege r =? OWNER)) (ugp db)).

Definition get_number_of_members (db : DB) (self : nat) : Z :=
  count (get_members db self).

End GroupAccess.

(** ** ResourceAccess *)

Module ResourceAccess.

(** [Group.objects.filter(g2grpnew__resourcenew=self.resource).distinct()] *)
Definition holding_groups (db : DB) (self : nat) : list nat :=
  distinct (map grp_group (filter (fun r => Nat.eqb (grp_resource r) self) (grp db))).

(** [User.objects.filter(u2urpnew__resourcenew=self.resource).distinct()] *)
Definition holding_users (db : DB) (self : nat) : list nat :=
  distinct (map urp_user (filter (fun r => Nat.eqb (urp_resource r) self) (urp db))).

(** [get_owners] has no [distinct()]: the join yields a user once for
    each of the user's OWNER rows. *)
Definition get_owners (db : DB) (self : nat) : list nat :=
  map urp_user
    (filter (fun r => (urp_privilege r =? OWNER) && Nat.eqb (urp_resource r) self) (urp db)).

Definition get_number_of_owners (db : DB) (self : nat) : Z :=
  count (get_owners db self).

Definition get_number_of_owner_records (db : DB) (self : nat) : Z :=
  count (filter (fun r => Nat.eqb (urp_resource r) self && (urp_privilege r =? OWNER)) (urp db)).

Definition get_users (db : DB) (self : nat) : list nat :=
  map urp_user (filter (fun r => Nat.eqb (urp_resource r) self) (urp db)).

Definition get_groups := holding_groups.

(** The rows of the join behind the group half of
    [get_combined_privilege]: a GroupResourcePrivilege row over the
    resource, of an active group, paired with each membership row of
    [this_user] in that group, the user being active. *)
Definition group_priv_rows (db : DB) (self this_user : nat) : list Z :=
  flat_map
    (fun gr =>
       map (fun _ => grp_privilege gr)
           (filter (fun m => Nat.eqb (ugp_group m) (grp_group gr)
                             && Nat.eqb (ugp_user m) this_user
                             && is_active (auth_user db (ugp_user m))) (ugp db)))
    (filter (fun gr => Nat.eqb (grp_resource gr) self
                       && ga_active (gaccess db (grp_group gr))) (grp db)).

Definition user_priv_rows (db : DB) (self this_user : nat) : list Z :=
  map urp_privilege
    (filter (fun r => Nat.eqb (urp_user r) this_user
                      && is_active (auth_user db (urp_user r))
                      && Nat.eqb (urp_resource r) self) (urp db)).

Definition get_combined_privilege (db : DB) (self this_user : nat) : Z :=
  if is_superuser (auth_user db this_user) then OWNER
  else
    let user_priv := aggregate_Min (user_priv_rows db self this_user) in
    let response1 := match user_priv with None => NONE | Some v => v end in
    let group_priv := aggregate_Min (group_priv_rows db self this_user) in
    let response2 := match group_priv with None => NONE | Some v => v end in
    Z.min response1 response2.

Definition get_group_privilege (db : DB) (self this_group : nat) : Z :=
  let response1 := aggregate_Min (map grp_privilege
                     (filter (fun r => Nat.eqb (grp_group r) this_group
                                       && ga_active (gaccess db (grp_group r))
                                       && Nat.eqb (grp_resource r) self) (grp db))) in
  match response1 with
  | None => NONE
  | Some v => v
  end.

Definition get_effective_privilege (db : DB) (self this_user : nat) : Z :=
  let user_priv := get_combined_privilege db self this_user in
  let user_priv := if ra_immutable (raccess db self)
                   then Z.max user_priv VIEW else user_priv in
  let user_priv := if ra_public (raccess db self)
                   then Z.min user_priv VIEW else user_priv in
  user_priv.

(** [User.objects.filter(Q(u2urpnew__resourcenew=self.resource)
    | Q(u2ugpnew__groupnew__g2grpnew__resourcenew=self.resource)).distinct()]:
    the users with a row over the resource and the users with a membership
    row in a group that has a row over the resource. *)
Definition get_holders (db : DB) (self : nat) : list nat :=
  distinct
    (map urp_user (filter (fun r => Nat.eqb (urp_resource r) self) (urp db))
     ++ map ugp_user
          (filter (fun m => exists_ (filter (fun gr => Nat.eqb (grp_group gr) (ugp_group m)
                                                       && Nat.eqb (grp_resource gr) self)
                                            (grp db)))
                  (ugp db))).

End ResourceAccess.

(** ** UserAccess *)

Module UserAccess.

Definition pass : M unit := ret tt.

(** The refusal of a check / do method: [DO] raises, [CHECK] answers
    [False]. *)
Definition refuse (command : CommandCodes) (message : string) : M bool :=
  match command with
  | DO => raise (PermissionDenied message)
  | CHECK => ret false
  end.

(** *** Groups *)

(** [GroupAccess.objects.create(groupnew=raw_group)]: [GroupAccess] has
    the field [group] and no field [groupnew], and the model constructor
    raises TypeError for the unknown keyword; nothing is written. *)
Definition GroupAccess_create_groupnew (raw_group : nat) : M GroupAccessRow :=
  raise TypeError.

(** [UserGroupPrivilege.objects.create(groupnew=, usernew=, grantornew=,
    privilege=)], the INSERT that [get_or_create] also makes on its create
    path: the row would have its old columns [user], [group] and
    [grantor] empty, which are declared [null=False], and the database
    refuses it with IntegrityError; nothing is written. *)
Definition UserGroupPrivilege_create (this_group this_user grantor : nat) (privilege : Z)
  : M UserGroupPrivilege :=
  raise IntegrityError.


Definition owns_group (db : DB) (self this_group : nat) : bool :=
  if negb (ga_active (gaccess db this_group)) then false
  else if exists_ (filter (fun r => Nat.eqb (ugp_group r) this_group
                                    && (ugp_privilege r =? OWNER)
                                    && Nat.eqb (ugp_user r) self) (ugp db))
  then true else false.

Definition can_change_group (db : DB) (self this_group : nat) : bool :=
  if negb (is_active (auth_user db self)) || negb (ga_active (gaccess db this_group))
  then false
  else if is_superuser (auth_user db self) then true
  else if exists_ (filter (fun r => Nat.eqb (ugp_group r) this_group
                                    && (ugp_privilege r <=? CHANGE)
                                    && Nat.eqb (ugp_user r) self) (ugp db))
  then true else false.

Definition can_view_group (db : DB) (self this_group : nat) : bool :=
  let access_group := gaccess db this_group in
  if negb (is_active (auth_user db self)) then false
  else if is_superuser (auth_user db self) || ga_public access_group then true
  else if exists_ (filter (fun r => Nat.eqb (ugp_group r) this_group
                                    && (ugp_privilege r <=? VIEW)
                                    && Nat.eqb (ugp_user r) self) (ugp db))
  then true else false.

Definition can_view_group_metadata (db : DB) (self this_group : nat) : bool :=
  let access_group := gaccess db this_group in
  if negb (is_active (auth_user db self)) then false
  else if ga_discoverable access_group || ga_public access_group then true
  else can_view_group db self this_group.

Definition can_change_group_flags (db : DB) (self this_group : nat) : bool :=
  if negb (is_active (auth_user db self)) then false
  else is_superuser (auth_user db self) || owns_group db self this_group.

Definition can_delete_group (db : DB) (self this_group : nat) : Result bool :=
  if negb (is_active (auth_user db self))
  then Raise (PermissionDenied "Requesting user is not active")
  else Return (is_superuser (auth_user db self) || owns_group db self this_group).

Definition can_share_group (db : DB) (self this_group : nat) (this_privilege : Z) : bool :=
  let access_group := gaccess db this_group in
  if negb (is_active (auth_user db self)) then false
  else if is_superuser (auth_user db self) then true
  else if negb (owns_group db self this_group) && negb (ga_shareable access_group) then false
  else if exists_ (filter (fun r => Nat.eqb (ugp_group r) this_group
                                    && Nat.eqb (ugp_user r) self
                                    && (ugp_privilege r <=? this_privilege)) (ugp db))
  then true else false.

(** [UserGroupPrivilege.objects.get_or_create(groupnew=, usernew=,
    grantornew=, defaults={'privilege': })] *)
Definition ugp_get_or_create (this_group this_user grantor : nat) (privilege : Z)
  : M (UserGroupPrivilege * bool) :=
  db <- ask (fun db => db) ;;
  match get (filter (fun r => Nat.eqb (ugp_group r) this_group
                              && Nat.eqb (ugp_user r) this_user
                              && Nat.eqb (ugp_grantor r) grantor) (ugp db)) with
  | Return record => ret (record, false)
  | Raise DoesNotExist =>
      record <- UserGroupPrivilege_create this_group this_user grantor privilege ;;
      ret (record, true)
  | Raise e => raise e
  end.

(** [record.privilege = privilege; record.save()] for the row that [get]
    returned under the lookup [(group, user, grantor)]. *)
Definition ugp_save (record : UserGroupPrivilege) (privilege : Z) : M unit :=
  modify (fun db =>
    set_ugp (map (fun r => if Nat.eqb (ugp_group r) (ugp_group record)
                              && Nat.eqb (ugp_user r) (ugp_user record)
                              && Nat.eqb (ugp_grantor r) (ugp_grantor record)
                           then mkUGP privilege (ugp_user r) (ugp_group r) (ugp_grantor r)
                           else r) (ugp db)) db).

Definition ugp_delete (p : UserGroupPrivilege -> bool) : M unit :=
  modify (fun db => set_ugp (exclude p (ugp db)) db).

Definition share_group_with_user (self this_group this_user : nat) (this_privilege : Z)
  : M unit :=
  db <- ask (fun db => db) ;;
  let access_group := gaccess db this_group in
  (* check for user authorization *)
  if negb (is_active (auth_user db self))
  then raise (PermissionDenied "User is not active")
  else if negb (owns_group db self this_group) && negb (ga_shareable access_group)
          && negb (is_superuser (auth_user db self))
  then raise (PermissionDenied "User is not group owner and group is not shareable")
  else if negb (is_superuser (auth_user db self))
          && negb (exists_ (filter (fun r => Nat.eqb (ugp_group r) this_group
                                             && Nat.eqb (ugp_user r) self
                                             && (ugp_privilege r <=? this_privilege))
                                   (ugp db)))
  then raise (PermissionDenied "User has insufficient privilege over group")
  else
    rc <- ugp_get_or_create this_group this_user self this_privilege ;;
    let record := fst rc in
    let created := snd rc in
    (if negb created
     then
       owners <- ask (fun db => GroupAccess.get_number_of_owners db this_group) ;;
       if (ugp_privilege record =? OWNER) && negb (this_privilege =? OWNER)
          && (owners =? 1)
       then raise (PermissionDenied "Cannot remove last owner of group")
       else ugp_save record this_privilege
     else pass) ;;;
    (* owner overrides all lesser privilege *)
    override <- ask (fun db => owns_group db self this_group
                               || is_superuser (auth_user db self)) ;;
    if override
    then ugp_delete (fun r => Nat.eqb (ugp_group r) this_group
                              && Nat.eqb (ugp_user r) this_user
                              && (ugp_privilege r <? this_privilege))
    else pass.

Definition __handle_unshare_group_with_user
    (self this_group this_user : nat) (command : CommandCodes) : M bool :=
  db <- ask (fun db => db) ;;
  if negb (is_active (auth_user db self))
  then refuse command "Grantor is not active"
  else if negb (contains this_user (GroupAccess.members db this_group))
  then refuse command "User is not a member of the group"
  else if is_superuser (auth_user db self)
          || owns_group db self this_group
          || Nat.eqb this_user self
  then
    (* if there is a different owner, we're fine *)
    if exists_ (exclude (fun r => Nat.eqb (ugp_user r) this_user)
                  (filter (fun r => Nat.eqb (ugp_group r) this_group
                                    && (ugp_privilege r =? OWNER)) (ugp db)))
    then
      match command with
      | DO => ugp_delete (fun r => Nat.eqb (ugp_group r) this_group
                                   && Nat.eqb (ugp_user r) this_user)
      | CHECK => pass
      end ;;;
      ret true
    else refuse command "Cannot remove sole owner of group"
  else refuse command "User has insufficient privilege to unshare".

Definition unshare_group_with_user (self this_group this_user : nat) : M bool :=
  __handle_unshare_group_with_user self this_group this_user DO.

Definition can_unshare_group_with_user (self this_group this_user : nat) : M bool :=
  __handle_unshare_group_with_user self this_group this_user CHECK.

Definition __handle_undo_share_group_with_user
    (self this_group this_user : nat) (command : CommandCodes)
    (this_grantor : option nat) : M bool :=
  db <- ask (fun db => db) ;;
  let access_group := gaccess db this_group in
  let denied_by_grantor : option string :=
    match this_grantor with
    | Some grantor =>
        if negb (exists_ (filter (fun r => Nat.eqb (ugp_group r) this_group
                                           && Nat.eqb (ugp_user r) this_user
                                           && Nat.eqb (ugp_grantor r) grantor) (ugp db)))
        then Some "Grantor did not grant privilege"
        else if negb (owns_group db self this_group)
                && negb (is_superuser (auth_user db self))
        then Some "Self must be owner or admin"
        else None
    | None => None
    end in
  match denied_by_grantor with
  | Some message => refuse command message
  | None =>
    if negb (is_active (auth_user db self))
    then refuse command "Grantor is not active"
    else if negb (contains this_user (GroupAccess.members db this_group))
    then refuse command "User is not a member of the group"
    else
      match get (filter (fun r => Nat.eqb (ugp_group r) this_group
                                  && Nat.eqb (ugp_user r) this_user
                                  && Nat.eqb (ugp_grantor r) self) (ugp db)) with
      | Return existing =>
          (* if the privilege for user is not OWNER, or there's another OWNER *)
          other_owner <-
            (if negb (ugp_privilege existing =? OWNER) then ret true
             else
               let owners := filter (fun r => Nat.eqb (ugp_group r) this_group
                                              && (ugp_privilege r =? OWNER)) (ugp db) in
               match this_grantor with
               | None =>
                   (* exclude(usernew=this_user, grantor=None) *)
                   ret (exists_ (exclude (fun r => Nat.eqb (ugp_user r) this_user
                                                   && eq_opt None (ugp_grantor r))
                                         owners))
               | Some _ =>
                   (* exclude(usernew=this_user, grantor=this_grantor) *)
                   others <- lift (lookup_grantor_User
                                     (exclude (fun r => Nat.eqb (ugp_user r) this_user)
                                              owners)) ;;
                   ret (exists_ others)
               end) ;;
          if other_owner
          then
            match command with
            | DO => ugp_delete (fun r => Nat.eqb (ugp_group r) this_group
                                         && Nat.eqb (ugp_user r) this_user
                                         && eq_opt this_grantor (ugp_grantor r))
            | CHECK => pass
            end ;;;
            ret true
          else refuse command "Cannot remove sole owner of group"
      | Raise DoesNotExist => refuse command "No share to undo"
      | Raise e => raise e
      end
  end.

Definition undo_share_group_with_user
    (self this_group this_user : nat) (this_grantor : option nat) : M bool :=
  __handle_undo_share_group_with_user self this_group this_user DO this_grantor.

Definition can_undo_share_group_with_user
    (self this_group this_user : nat) (this_grantor : option nat) : M bool :=
  __handle_undo_share_group_with_user self this_group this_user CHECK this_grantor.

(** *** Resources *)

Definition owns_resource (db : DB) (self this_resource : nat) : bool :=
  if exists_ (filter (fun r => Nat.eqb (urp_resource r) this_resource
                               && (urp_privilege r =? OWNER)
                               && Nat.eqb (urp_user r) self) (urp db))
  then true else false.

(** [GroupResourcePrivilege.objects.filter(resourcenew=, privilege__lte=,
    groupnew__g2ugpnew__usernew=self.user)]: the rows over the resource
    at the level, joined with the membership rows of [self]. *)
Definition group_grants_lte (db : DB) (self this_resource : nat) (level : Z)
  : list GroupResourcePrivilege :=
  flat_map
    (fun gr => map (fun _ => gr)
                   (filter (fun m => Nat.eqb (ugp_group m) (grp_group gr)
                                     && Nat.eqb (ugp_user m) self) (ugp db)))
    (filter (fun gr => Nat.eqb (grp_resource gr) this_resource
                       && (grp_privilege gr <=? level)) (grp db)).

Definition can_change_resource (db : DB) (self this_resource : nat) : bool :=
  let access_resource := raccess db this_resource in
  if negb (is_active (auth_user db self)) then false
  else if ra_immutable access_resource then false
  else if is_superuser (auth_user db self) then true
  else if exists_ (filter (fun r => Nat.eqb (urp_resource r) this_resource
                                    && (urp_privilege r <=? CHANGE)
                                    && Nat.eqb (urp_user r) self) (urp db))
  then true
  else if exists_ (group_grants_lte db self this_resource CHANGE) then true
  else false.

Definition can_change_resource_flags (db : DB) (self this_resource : nat) : bool :=
  is_active (auth_user db self)
  && (is_superuser (auth_user db self) || owns_resource db self this_resource).

Definition can_view_resource (db : DB) (self this_resource : nat) : bool :=
  let access_resource := raccess db this_resource in
  if negb (is_active (auth_user db self)) then false
  else if ra_public access_resource then true
  else if is_superuser (auth_user db self) then true
  else if exists_ (filter (fun r => Nat.eqb (urp_resource r) this_resource
                                    && (urp_privilege r <=? VIEW)
                                    && Nat.eqb (urp_user r) self) (urp db))
  then true
  else if exists_ (group_grants_lte db self this_resource VIEW) then true
  else false.

Definition can_delete_resource (db : DB) (self this_resource : nat) : bool :=
  is_active (auth_user db self)
  && (is_superuser (auth_user db self) || owns_resource db self this_resource).

Definition can_share_resource (db : DB) (self this_resource : nat) (this_privilege : Z)
  : bool :=
  let access_resource := raccess db this_resource in
  if negb (is_active (auth_user db self)) then false
  else
    let whom_priv := ResourceAccess.get_combined_privilege db this_resource self in
    (* check for user authorization *)
    if negb (is_superuser (auth_user db self)
             || (whom_priv =? OWNER)
             || ra_shareable access_resource)
    then false
    (* no privilege over resource *)
    else if whom_priv >? VIEW then false
    (* insufficient privilege over resource *)
    else if whom_priv >? this_privilege then false
    else true.

Definition can_share_resource_with_group
    (db : DB) (self this_resource this_group : nat) (this_privilege : Z) : bool :=
  if this_privilege =? OWNER then false
  else if negb (can_share_resource db self this_resource this_privilege) then false
  else if negb (contains self (GroupAccess.get_members db this_group))
          && negb (is_superuser (auth_user db self))
  then false
  else true.

(** [UserResourcePrivilege.objects.get_or_create(resourcenew=, usernew=,
    grantor=self.user, defaults={'privilege': })]: the lookup names the
    old column [grantor] with a [User]. *)
Definition urp_get_or_create (this_resource this_user grantor : nat) (privilege : Z)
  : M (UserResourcePrivilege * bool) :=
  db <- ask (fun db => db) ;;
  qs <- lift (lookup_grantor_User
                (filter (fun r => Nat.eqb (urp_resource r) this_resource
                                  && Nat.eqb (urp_user r) this_user) (urp db))) ;;
  match get qs with
  | Return record => ret (record, false)
  | Raise DoesNotExist =>
      (* create(resourcenew=, usernew=, grantor=<User>, privilege=): the
         constructor refuses to assign a User to [grantor] *)
      raise ValueError
  | Raise e => raise e
  end.

Definition urp_save (record : UserResourcePrivilege) (privilege : Z) : M unit :=
  modify (fun db =>
    set_urp (map (fun r => if Nat.eqb (urp_resource r) (urp_resource record)
                              && Nat.eqb (urp_user r) (urp_user record)
                              && Nat.eqb (urp_grantor r) (urp_grantor record)
                           then mkURP privilege (urp_user r) (urp_resource r) (urp_grantor r)
                           else r) (urp db)) db).

Definition urp_delete (p : UserResourcePrivilege -> bool) : M unit :=
  modify (fun db => set_urp (exclude p (urp db)) db).

Definition share_resource_with_user
    (self this_resource this_user : nat) (this_privilege : Z) : M unit :=
  db <- ask (fun db => db) ;;
  let access_resource := raccess db this_resource in
  if negb (is_active (auth_user db self))
  then raise (PermissionDenied "Requester is not an active user")
  else if negb (is_active (auth_user db this_user))
  then raise (PermissionDenied "Grantee is not an active user")
  else
    let whom_priv := ResourceAccess.get_combined_privilege db this_resource self in
    let grantee_priv := ResourceAccess.get_combined_privilege db this_resource this_user in
    (* check for user authorization *)
    if negb (is_superuser (auth_user db self)
             || (whom_priv =? OWNER)
             || ra_shareable access_resource)
    then raise (PermissionDenied "User must own resource or have sharing privilege")
    (* privilege checking *)
    else if whom_priv >? VIEW
    then raise (PermissionDenied "User has no privilege over resource")
    else if whom_priv >? this_privilege
    then raise (PermissionDenied "User has insufficient privilege over resource")
    else
      (* non owner can't downgrade privilege granted by someone else *)
      (if negb (whom_priv =? OWNER) && (grantee_priv <? this_privilege)
       then
         record <- lift (get (filter (fun r => Nat.eqb (urp_resource r) this_resource
                                               && Nat.eqb (urp_user r) this_user
                                               && (urp_privilege r =? grantee_priv))
                                     (urp db))) ;;
         (* current grantor (self) is not the same as the original grantor *)
         (* record.grantor != self.user: a UserAccess against a User *)
         if negb (eq_across_models (urp_grantor record) self)
         then raise (PermissionDenied "User has insufficient privilege over resource")
         else pass
       else pass) ;;;
      atomic (
        rc <- urp_get_or_create this_resource this_user self this_privilege ;;
        let record := fst rc in
        let create := snd rc in
        owners <- ask (fun db => ResourceAccess.get_number_of_owners db this_resource) ;;
        if (urp_privilege record =? OWNER) && negb (this_privilege =? OWNER)
           && (owners =? 1)
        then raise (PermissionDenied "Cannot remove last owner of resource")
        else if negb create
        then urp_save record this_privilege
        else pass) ;;;
      (* if there exists higher privileges than what was granted now
         (this_privilege) then those needs to be deleted *)
      override <- ask (fun db => is_active (auth_user db self)
                                 && (is_superuser (auth_user db self)
                                     || owns_resource db self this_resource)) ;;
      if override
      then urp_delete (fun r => Nat.eqb (urp_resource r) this_resource
                                && Nat.eqb (urp_user r) this_user
                                && (urp_privilege r <? this_privilege))
      else pass.

Definition __handle_unshare_resource_with_user
    (self this_resource this_user : nat) (command : CommandCodes) : M bool :=
  db <- ask (fun db => db) ;;
  if negb (contains this_user (ResourceAccess.holding_users db this_resource))
  then refuse command "User does not have access to resource"
  else if is_superuser (auth_user db self)
          || (ResourceAccess.get_combined_privilege db this_resource self =? OWNER)
          || Nat.eqb this_user self
  then
    (* if there is some other owner *)
    if exists_ (exclude (fun r => Nat.eqb (urp_user r) this_user)
                  (filter (fun r => Nat.eqb (urp_resource r) this_resource
                                    && (urp_privilege r =? OWNER)) (urp db)))
    then
      match command with
      | DO => urp_delete (fun r => Nat.eqb (urp_resource r) this_resource
                                   && Nat.eqb (urp_user r) this_user)
      | CHECK => pass
      end ;;;
      ret true
    else refuse command "Cannot remove sole resource owner"
  else refuse command "Insufficient privilege to unshare resource".

Definition unshare_resource_with_user (self this_resource this_user : nat) : M bool :=
  __handle_unshare_resource_with_user self this_resource this_user DO.

Definition can_unshare_resource_with_user (self this_resource this_user : nat) : M bool :=
  __handle_unshare_resource_with_user self this_resource this_user CHECK.

Definition __handle_undo_share_resource_with_user
    (self this_resource this_user : nat) (command : CommandCodes)
    (this_grantor : option nat) : M bool :=
  match this_grantor with
  | Some _ =>
      (* the lookup [GroupResourcePrivilege.objects.filter(usernew=...)]
         names a field that GroupResourcePrivilege does not have *)
      raise FieldError
  | None =>
      let this_grantor := self in
      db <- ask (fun db => db) ;;
      (* get(resourcenew=, usernew=, grantor=this_grantor) *)
      qs <- lift (lookup_grantor_User
                    (filter (fun r => Nat.eqb (urp_resource r) this_resource
                                      && Nat.eqb (urp_user r) this_user) (urp db))) ;;
      match get qs with
      | Return existing =>
          (* if there is an owner other than the grantee, or the grantee is
             not an owner *)
          if negb (urp_privilege existing =? OWNER)
             || exists_ (exclude (fun r => Nat.eqb (urp_resource r) this_resource
                                           && Nat.eqb (urp_user r) this_user)
                           (filter (fun r => Nat.eqb (urp_resource r) this_resource
                                             && (urp_privilege r =? OWNER)) (urp db)))
          then
            match command with
            | DO =>
                (* filter(resourcenew=, usernew=, grantor=this_grantor).delete() *)
                granted <- lift (lookup_grantor_User
                                   (filter (fun r => Nat.eqb (urp_resource r) this_resource
                                                     && Nat.eqb (urp_user r) this_user)
                                           (urp db))) ;;
                urp_delete (fun r => Nat.eqb (urp_resource r) this_resource
                                     && Nat.eqb (urp_user r) this_user
                                     && Nat.eqb (urp_grantor r) this_grantor)
            | CHECK => pass
            end ;;;
            ret true
          else refuse command "Cannot remove sole resource owner"
      | Raise DoesNotExist => refuse command "No share to undo"
      | Raise e => raise e
      end
  end.

Definition undo_share_resource_with_user
    (self this_resource this_user : nat) (this_grantor : option nat) : M bool :=
  __handle_undo_share_resource_with_user self this_resource this_user DO this_grantor.

Definition can_undo_share_resource_with_user
    (self this_resource this_user : nat) (this_grantor : option nat) : M bool :=
  __handle_undo_share_resource_with_user self this_resource this_user CHECK this_grantor.

Definition grp_delete (p : GroupResourcePrivilege -> bool) : M unit :=
  modify (fun db => set_grp (exclude p (grp db)) db).

Definition __handle_unshare_resource_with_group
    (self this_resource this_group : nat) (command : CommandCodes) : M bool :=
  db <- ask (fun db => db) ;;
  if negb (contains this_group (ResourceAccess.holding_groups db this_resource))
  then refuse command "Group does not have access to resource"
  else if is_active (auth_user db self)
          && (is_superuser (auth_user db self)
              || owns_resource db self this_resource
              || owns_group db self this_group)
  then
    match command with
    | DO => grp_delete (fun r => Nat.eqb (grp_resource r) this_resource
                                 && Nat.eqb (grp_group r) this_group)
    | CHECK => pass
    end ;;;
    ret true
  else refuse command "Insufficient privilege to unshare resource".

Definition unshare_resource_with_group (self this_resource this_group : nat) : M bool :=
  __handle_unshare_resource_with_group self this_resource this_group DO.

Definition can_unshare_resource_with_group (self this_resource this_group : nat) : M bool :=
  __handle_unshare_resource_with_group self this_resource this_group CHECK.

(** *** Enumeration helpers *)

Definition get_resource_unshare_users (db : DB) (self this_resource : nat)
  : Result (list nat) :=
  if negb (is_active (auth_user db self))
  then Raise (PermissionDenied "Requesting user is not active")
  else if is_superuser (auth_user db self) || owns_resource db self this_resource
  then
    (* everyone who holds this resource, minus potential sole owners *)
    if ResourceAccess.get_number_of_owners db this_resource =? 1
    then
      let ids_exclude :=
        distinct (map urp_user
          (filter (fun r => Nat.eqb (urp_resource r) this_resource
                            && (urp_privilege r =? OWNER)) (urp db))) in
      Return (exclude (fun u => contains u ids_exclude)
                      (ResourceAccess.get_users db this_resource))
    else Return (ResourceAccess.get_users db this_resource)
  (* self in access_resource.holding_users.all(): a UserAccess among Users *)
  else if contains_across_models self (ResourceAccess.holding_users db this_resource)
  then Return [self]
  else Return [].

Definition get_resource_undo_groups (db : DB) (self this_resource : nat)
  : Result (list nat) :=
  if negb (is_active (auth_user db self))
  then Raise (PermissionDenied "Requesting user is not active")
  else if is_superuser (auth_user db self) || owns_resource db self this_resource
  then Return (distinct (map grp_group
                 (filter (fun r => Nat.eqb (grp_resource r) this_resource) (grp db))))
  else
    (* privilege only for grantor: g2grpnew__grantor=self.user *)
    match lookup_grantor_User
            (filter (fun r => Nat.eqb (grp_resource r) this_resource) (grp db)) with
    | Return rows => Return (distinct (map grp_group rows))
    | Raise e => Raise e
    end.

Definition get_resource_unshare_groups (db : DB) (self this_resource : nat)
  : Result (list nat) :=
  if negb (is_active (auth_user db self))
  then Raise (PermissionDenied "Requesting user is not active")
  else if is_superuser (auth_user db self) || owns_resource db self this_resource
  then Return (map grp_group
                 (filter (fun r => Nat.eqb (grp_resource r) this_resource) (grp db)))
  else Return (distinct (map ugp_group
                 (filter (fun r => Nat.eqb (ugp_user r) self
                                   && (ugp_privilege r =? OWNER)) (ugp db)))).

(** *** Further methods *)


Definition get_owned_groups (db : DB) (self : nat) : list nat :=
  distinct (map ugp_group
    (filter (fun r => Nat.eqb (ugp_user r) self && (ugp_privilege r =? OWNER)) (ugp db))).

Definition get_number_of_owned_groups (db : DB) (self : nat) : Z :=
  count (get_owned_groups db self).

Definition get_owned_resources (db : DB) (self : nat) : list nat :=
  distinct (map urp_resource
    (filter (fun r => Nat.eqb (urp_user r) self && (urp_privilege r =? OWNER)) (urp db))).

Definition get_number_of_owned_resources (db : DB) (self : nat) : Z :=
  count (get_owned_resources db self).

Definition get_editable_resources (db : DB) (self : nat) : list nat :=
  distinct (map urp_resource
    (filter (fun r => Nat.eqb (urp_user r) self
                      && negb (ra_immutable (raccess db (urp_resource r)))
                      && (urp_privilege r <=? CHANGE)) (urp db))).

(** The mutable resources over which the user has a row at [privilege]
    and no row at a lower code. *)
Definition get_resources_with_explicit_access (db : DB) (self : nat) (privilege : Z)
  : list nat :=
  distinct
    (exclude
       (fun id => contains id
          (map urp_resource
             (filter (fun r => Nat.eqb (urp_user r) self
                               && (urp_privilege r <? privilege)) (urp db))))
       (map urp_resource
          (filter (fun r => negb (ra_immutable (raccess db (urp_resource r)))
                            && Nat.eqb (urp_user r) self
                            && (urp_privilege r =? privilege)) (urp db)))).

(** [GroupResourcePrivilege.objects.get_or_create(resourcenew=, groupnew=,
    grantornew=, defaults={'privilege': })] *)
Definition grp_get_or_create (this_resource this_group grantor : nat) (privilege : Z)
  : M (GroupResourcePrivilege * bool) :=
  db <- ask (fun db => db) ;;
  match get (filter (fun r => Nat.eqb (grp_resource r) this_resource
                              && Nat.eqb (grp_group r) this_group
                              && Nat.eqb (grp_grantor r) grantor) (grp db)) with
  | Return record => ret (record, false)
  | Raise DoesNotExist =>
      (* the INSERT leaves the old columns [group], [resource] and
         [grantor] empty, which are declared null=False *)
      raise IntegrityError
  | Raise e => raise e
  end.

Definition grp_save (record : GroupResourcePrivilege) (privilege : Z) : M unit :=
  modify (fun db =>
    set_grp (map (fun r => if Nat.eqb (grp_resource r) (grp_resource record)
                              && Nat.eqb (grp_group r) (grp_group record)
                              && Nat.eqb (grp_grantor r) (grp_grantor record)
                           then mkGRP privilege (grp_group r) (grp_resource r) (grp_grantor r)
                           else r) (grp db)) db).

Definition share_resource_with_group
    (self this_resource this_group : nat) (this_privilege : Z) : M unit :=
  db <- ask (fun db => db) ;;
  if this_privilege =? OWNER
  then raise (PermissionDenied "Groups cannot own resources")
  else if (this_privilege <? OWNER) || (this_privilege >? VIEW)
  then raise (PermissionDenied "Privilege level not valid")
  (* check for user authorization *)
  else if negb (can_share_resource db self this_resource this_privilege)
  then raise (PermissionDenied "User has insufficient sharing privilege over resource")
  else if negb (contains self (GroupAccess.members db this_group))
          && negb (is_superuser (auth_user db self))
  then raise (PermissionDenied "User is not a member of the group and not an admin")
  else
    atomic (
      rc <- grp_get_or_create this_resource this_group self this_privilege ;;
      let record := fst rc in
      let created := snd rc in
      if negb created
      then grp_save record this_privilege
      else pass) ;;;
    (* owner overrides all lesser privilege *)
    override <- ask (fun db => is_active (auth_user db self)
                               && (owns_group db self this_group
                                   || is_superuser (auth_user db self))) ;;
    if override
    then grp_delete (fun r => Nat.eqb (grp_group r) this_group
                              && Nat.eqb (grp_resource r) this_resource
                              && (grp_privilege r <? this_privilege))
    else pass.

Definition __handle_undo_share_resource_with_group
    (self this_resource this_group : nat) (command : CommandCodes)
    (this_grantor : option nat) : M bool :=
  (* handle optional grantor parameter *)
  let this_grantor := match this_grantor with
                      | None => self
                      | Some grantor => grantor
                      end in
  db <- ask (fun db => db) ;;
  if negb (owns_resource db self this_resource)
     && negb (is_superuser (auth_user db self))
  then refuse command "Self must be owner or admin"
  else
  (* filter(groupnew=, resourcenew=, grantor=this_grantor).exists() *)
  granted <- lift (lookup_grantor_User
                     (filter (fun r => Nat.eqb (grp_group r) this_group
                                       && Nat.eqb (grp_resource r) this_resource)
                             (grp db))) ;;
  if negb (exists_ granted)
  then refuse command "No privilege to remove"
  else if exists_ (filter (fun r => Nat.eqb (grp_resource r) this_resource
                                    && Nat.eqb (grp_group r) this_group
                                    && Nat.eqb (grp_grantor r) this_grantor) (grp db))
  then
    match command with
    | DO =>
        record <- lift (get (filter (fun r => Nat.eqb (grp_resource r) this_resource
                                              && Nat.eqb (grp_group r) this_group
                                              && Nat.eqb (grp_grantor r) this_grantor)
                                    (grp db))) ;;
        grp_delete (fun r => Nat.eqb (grp_resource r) (grp_resource record)
                             && Nat.eqb (grp_group r) (grp_group record)
                             && Nat.eqb (grp_grantor r) (grp_grantor record))
    | CHECK => pass
    end ;;;
    ret true
  else refuse command "Grantor did not grant privilege".

Definition undo_share_resource_with_group
    (self this_resource this_group : nat) (this_grantor : option nat) : M bool :=
  __handle_undo_share_resource_with_group self this_resource this_group DO this_grantor.

Definition can_undo_share_resource_with_group
    (self this_resource this_group : nat) (this_grantor : option nat) : M bool :=
  __handle_undo_share_resource_with_group self this_resource this_group CHECK this_grantor.

Definition get_resource_undo_users (db : DB) (self this_resource : nat)
  : Result (list nat) :=
  if is_active (auth_user db self)
     && (is_superuser (auth_user db self) || owns_resource db self this_resource)
  then
    if ResourceAccess.get_number_of_owners db this_resource >? 1
    then Return (map urp_user
                   (filter (fun r => Nat.eqb (urp_resource r) this_resource) (urp db)))
    else
      (* all candidate undos *)
      let ids_shared :=
        distinct (map urp_user
          (filter (fun r => Nat.eqb (urp_resource r) this_resource) (urp db))) in
      (* undoes that will remove sole owner *)
      let ids_owner :=
        distinct (map urp_user
          (filter (fun r => Nat.eqb (urp_resource r) this_resource
                            && (urp_privilege r =? OWNER)) (urp db))) in
      (* return difference *)
      Return (exclude (fun u => contains u ids_owner)
                (filter (fun u => contains u ids_shared)
                   (map urp_user
                      (filter (fun r => Nat.eqb (urp_resource r) this_resource)
                              (urp db)))))
  else
    if ResourceAccess.get_number_of_owners db this_resource >? 1
    then
      (* self is grantor: u2urpnew__grantor=self.user *)
      match lookup_grantor_User
              (filter (fun r => Nat.eqb (urp_resource r) this_resource) (urp db)) with
      | Return granted => Return (distinct (map urp_user granted))
      | Raise e => Raise e
      end
    else
      (* exclude sole owner from undo *)
      match lookup_grantor_User
              (filter (fun r => Nat.eqb (urp_resource r) this_resource) (urp db)) with
      | Return granted =>
          Return (distinct
                    (exclude
                       (fun pk => contains pk
                          (map urp_user
                             (filter (fun r => urp_privilege r =? OWNER) granted)))
                       (map urp_user granted)))
      | Raise e => Raise e
      end.

End UserAccess.
Import UserAccess.

(** ** Running methods *)

Definition outcome {A} (m : M A) (db : DB) : Result A := fst (m db).

Definition after {A} (m : M A) (db : DB) : DB := snd (m db).

(** ** The words of the specification *)

(** Grant records only store the levels of [PRIVILEGE_CHOICES]. *)
Definition stored_privileges_valid (db : DB) : Prop :=
  (forall row, In row (urp db) -> In (urp_privilege row) PRIVILEGE_CHOICES) /\
  (forall row, In row (grp db) -> In (grp_privilege row) PRIVILEGE_CHOICES) /\
  (forall row, In row (ugp db) -> In (ugp_privilege row) PRIVILEGE_CHOICES).

(** A direct user-resource grant at level [p] to [u] over [r], [u] being
    active. *)
Definition direct_grant (db : DB) (r u : nat) (p : Z) : Prop :=
  exists row, In row (urp db) /\ urp_user row = u /\ urp_resource row = r
              /\ urp_privilege row = p /\ is_active (auth_user db u) = true.

(** A group-resource grant at level [p] over [r] to an active group of
    which [u] is a member, [u] being active. *)
Definition group_grant (db : DB) (r u : nat) (p : Z) : Prop :=
  exists gr m, In gr (grp db) /\ In m (ugp db)
               /\ grp_resource gr = r /\ grp_privilege gr = p
               /\ ga_active (gaccess db (grp_group gr)) = true
               /\ ugp_group m = grp_group gr /\ ugp_user m = u
               /\ is_active (auth_user db u) = true.

Definition applicable_grant (db : DB) (r u : nat) (p : Z) : Prop :=
  direct_grant db r u p \/ group_grant db r u p.

(** [unique_together = (('user', 'group', 'grantor'),)]: a grantor holds
    at most one grant row for a user and a group. *)
Definition ugp_unique_together (db : DB) : Prop :=
  NoDup (map (fun row => (ugp_user row, ugp_group row, ugp_grantor row)) (ugp db)).

(** [unique_together = (('user', 'resource', 'grantor'),)] *)
Definition urp_unique_together (db : DB) : Prop :=
  NoDup (map (fun row => (urp_user row, urp_resource row, urp_grantor row)) (urp db)).

(** The flag adjustments of [get_effective_privilege] taken in the other
    order: the public cap first, the immutable floor second. *)
Definition effective_privilege_public_first (db : DB) (r u : nat) : Z :=
  let user_priv := ResourceAccess.get_combined_privilege db r u in
  let user_priv := if ra_public (raccess db r)
                   then Z.min user_priv VIEW else user_priv in
  let user_priv := if ra_immutable (raccess db r)
                   then Z.max user_priv VIEW else user_priv in
  user_priv.

(** An OWNER-level grant row for the principal over the object. *)
Definition owner_grant_group (db : DB) (u g : nat) : Prop :=
  exists row, In row (ugp db) /\ ugp_group row = g /\ ugp_user row = u
              /\ ugp_privilege row = OWNER.

Definition owner_grant_resource (db : DB) (u r : nat) : Prop :=
  exists row, In row (urp db) /\ urp_resource row = r /\ urp_user row = u
              /\ urp_privilege row = OWNER.

(** ** Sample databases *)

(** Every key names a user; the listed ones are superusers, respectively
    inactive. *)
Definition users_with (superusers inactive : list nat) : nat -> UserRow :=
  fun u => mkUser (negb (contains u inactive)) (contains u superusers).

Definition default_group : GroupAccessRow := mkGroupAccess true true true true.

Definition default_resource : ResourceAccessRow :=
  mkResourceAccess true false false true false false.

Definition empty_db (superusers inactive : list nat) : DB :=
  mkDB (users_with superusers inactive) (fun _ => default_group)
       (fun _ => default_resource) [] [] [] [].

(** The state after the creation of a resource: one OWNER grant from the
    creator to the creator. *)
Definition bootstrap_resource (creator r : nat) (db : DB) : DB :=
  set_urp (urp db ++ [mkURP OWNER creator r creator]) db.

(** ** Sequences of operations *)

Inductive Operation : Type :=
| ShareGroupWithUser (self this_group this_user : nat) (this_privilege : Z)
| UnshareGroupWithUser (self this_group this_user : nat)
| UndoShareGroupWithUser (self this_group this_user : nat) (this_grantor : option nat)
| ShareResourceWithUser (self this_resource this_user : nat) (this_privilege : Z)
| UnshareResourceWithUser (self this_resource this_user : nat)
| UndoShareResourceWithUser (self this_resource this_user : nat) (this_grantor : option nat).

Definition call (op : Operation) : M bool :=
  match op with
  | ShareGroupWithUser self g u p => share_group_with_user self g u p ;;; ret true
  | UnshareGroupWithUser self g u => unshare_group_with_user self g u
  | UndoShareGroupWithUser self g u grantor => undo_share_group_with_user self g u grantor
  | ShareResourceWithUser self r u p => share_resource_with_user self r u p ;;; ret true
  | UnshareResourceWithUser self r u => unshare_resource_with_user self r u
  | UndoShareResourceWithUser self r u grantor =>
      undo_share_resource_with_user self r u grantor
  end.

(** The outcomes of the calls, in order, and the database they leave. *)
Fixpoint call_all (ops : list Operation) (db : DB) : list (Result bool) * DB :=
  match ops with
  | [] => ([], db)
  | op :: rest =>
      let (result, db') := call op db in
      let (results, db'') := call_all rest db' in
      (result :: results, db'')
  end.

(** ** Sample principals and objects *)

Definition alice : nat := 1.
Definition bob : nat := 2.
Definition carol : nat := 3.
Definition dave : nat := 4.
Definition admin : nat := 9.
Definition res : nat := 1.

(** The group of the samples, made by [creator]: the group row and the
    bootstrap OWNER grant from the creator to the creator. *)
Definition group1 : nat := 1.

Definition with_group (creator : nat) (db : DB) : DB :=
  mkDB (auth_user db) (gaccess db) (raccess db) (group1 :: auth_group db)
       (ugp db ++ [mkUGP OWNER creator group1 creator]) (urp db) (grp db).

(** Alice created [res] and shared it at CHANGE with Bob and with Carol. *)
Definition change_holders_db : DB :=
  set_urp [mkURP OWNER alice res alice;
           mkURP CHANGE bob res alice;
           mkURP CHANGE carol res alice] (empty_db [] []).

(** Alice made [group1] and is its one owner; the superuser holds a VIEW
    grant of its own making to Alice. *)
Definition owner_with_admin_view_db : DB :=
  set_ugp [mkUGP OWNER alice group1 alice;
           mkUGP VIEW alice group1 admin] (with_group alice (empty_db [admin] [])).

(** Alice made [group1] and made Bob an owner; Bob holds VIEW grants of
    his own making to Alice and to himself. *)
Definition two_owners_db : DB :=
  set_ugp [mkUGP OWNER alice group1 alice;
           mkUGP OWNER bob group1 alice;
           mkUGP VIEW alice group1 bob;
           mkUGP VIEW bob group1 bob] (with_group alice (empty_db [] [])).

(** The two shares by Bob that leave [group1] of [two_owners_db] without
    an owner. *)
Definition owner_floor_group_shares : list Operation :=
  [ShareGroupWithUser bob group1 alice VIEW;
   ShareGroupWithUser bob group1 bob VIEW].

(** Alice owns [group1]; Carol holds VIEW from Alice, and Bob holds VIEW
    from Alice and VIEW from Carol. *)
Definition group_view_from_carol_db : DB :=
  set_ugp [mkUGP OWNER alice group1 alice;
           mkUGP VIEW carol group1 alice;
           mkUGP VIEW bob group1 alice;
           mkUGP VIEW bob group1 carol] (with_group alice (empty_db [] [])).

(** Alice made [group1] and shared it at VIEW with Bob. *)
Definition group_shared_db : DB :=
  set_ugp [mkUGP OWNER alice group1 alice;
           mkUGP VIEW bob group1 alice] (with_group alice (empty_db [] [])).

(** [res] is owned by Alice and its active flag is off. *)
Definition inactive_resource_db : DB :=
  let db := bootstrap_resource alice res (empty_db [] []) in
  mkDB (auth_user db) (gaccess db)
       (fun _ => mkResourceAccess false false false true false false)
       (auth_group db) (ugp db) (urp db) (grp db).

(** Dave is inactive; the superuser made [group1] and holds a VIEW grant
    of its own making to Dave. *)
Definition inactive_member_db : DB :=
  set_ugp [mkUGP OWNER admin group1 admin;
           mkUGP VIEW dave group1 admin] (with_group admin (empty_db [admin] [dave])).

(** Dave is inactive; the superuser made [group1], made Dave an owner and
    left the group: Dave is the sole owner, by the superuser's grant. *)
Definition inactive_sole_owner_db : DB :=
  set_ugp [mkUGP OWNER dave group1 admin] (with_group admin (empty_db [admin] [dave])).

(** ** Check / do pairs *)

(** The check of a pair answers for its action on a database: it changes
    nothing, answers [True] exactly when the action completes and [False]
    exactly when the action raises PermissionDenied. *)
Definition agrees (check action : M bool) (db : DB) : Prop :=
  snd (check db) = db /\
  (fst (check db) = Return true <-> exists db', action db = (Return true, db')) /\
  (fst (check db) = Return false
   <-> exists message, action db = (Raise (PermissionDenied message), db)).

(** ** Levels asked of a share *)

(** The level a share asks for is one of [PRIVILEGE_CHOICES]; the other
    operations ask for none. *)
Definition op_level_valid (op : Operation) : Prop :=
  match op with
  | ShareGroupWithUser _ _ _ p | ShareResourceWithUser _ _ _ p =>
      In p PRIVILEGE_CHOICES
  | _ => True
  end.

(** [unique_together = (('group', 'resource', 'grantor'),)] *)
Definition grp_unique_together (db : DB) : Prop :=
  NoDup (map (fun row => (grp_group row, grp_resource row, grp_grantor row)) (grp db)).

(** No group holds OWNER over a resource. *)
Definition no_group_owner (db : DB) : Prop :=
  forall row, In row (grp db) -> grp_privilege row <> OWNER.

(** ** Further sample databases *)

(** Alice made [group1] and created [res]. *)
Definition group_and_resource_db : DB :=
  bootstrap_resource alice res (with_group alice (empty_db [] [])).

(** Alice then shared [res] with [group1] at VIEW. *)
Definition group_holds_resource_db : DB :=
  set_grp [mkGRP VIEW group1 res alice] group_and_resource_db.

(** ** Properties of the QuerySet operations *)

Lemma exists_filter_true {A} (p : A -> bool) (l : list A) :
  exists_ (filter p l) = true <-> exists x, In x l /\ p x = true.
Proof.
  split.
  - destruct (filter p l) as [|x t] eqn:E; simpl; [discriminate|].
    intros _. exists x. apply filter_In. rewrite E. now left.
  - intros [x Hx]. apply filter_In in Hx.
    destruct (filter p l); [contradiction | reflexivity].
Qed.

Lemma fold_min_lower (l : list Z) (a : Z) :
  fold_left Z.min l a <= a /\ forall x, In x l -> fold_left Z.min l a <= x.
Proof.
  revert a. induction l as [|y l IH]; intros a; simpl.
  - split; [lia | contradiction].
  - destruct (IH (Z.min a y)) as [H1 H2]. split; [lia|].
    intros x [<-|Hx]; [lia | now apply H2].
Qed.

Lemma fold_min_attained (l : list Z) (a : Z) :
  fold_left Z.min l a = a \/ In (fold_left Z.min l a) l.
Proof.
  revert a. induction l as [|y l IH]; intros a; simpl; [now left|].
  destruct (IH (Z.min a y)) as [H|H]; [|now right; right].
  rewrite H. destruct (Z.min_spec a y) as [[_ ->]|[_ ->]]; auto.
Qed.

Lemma aggregate_Min_none (l : list Z) : aggregate_Min l = None <-> l = [].
Proof. destruct l; simpl; split; congruence. Qed.

Lemma aggregate_Min_some (l : list Z) (m : Z) :
  aggregate_Min l = Some m -> In m l /\ forall x, In x l -> m <= x.
Proof.
  destruct l as [|a l]; simpl; [discriminate|].
  intros [= <-]. split.
  - destruct (fold_min_attained l a) as [->|H]; auto.
  - destruct (fold_min_lower l a) as [H1 H2].
    intros x [<-|Hx]; [exact H1 | now apply H2].
Qed.

(** ** The privilege resolver *)

Lemma user_priv_rows_spec db r u p :
  In p (ResourceAccess.user_priv_rows db r u) <-> direct_grant db r u p.
Proof.
  unfold ResourceAccess.user_priv_rows, direct_grant. rewrite in_map_iff. split.
  - intros [row [Hp Hin]]. apply filter_In in Hin. destruct Hin as [Hin Hc].
    apply andb_prop in Hc. destruct Hc as [Hc Hr]. apply andb_prop in Hc.
    destruct Hc as [Hu Ha]. apply Nat.eqb_eq in Hu, Hr. exists row.
    rewrite Hu in Ha. auto.
  - intros [row (Hin & Hu & Hr & Hp & Ha)]. exists row. split; [assumption|].
    apply filter_In. split; [assumption|].
    rewrite Hu, Hr, Ha, !Nat.eqb_refl. reflexivity.
Qed.

Lemma group_priv_rows_spec db r u p :
  In p (ResourceAccess.group_priv_rows db r u) <-> group_grant db r u p.
Proof.
  unfold ResourceAccess.group_priv_rows, group_grant. rewrite in_flat_map. split.
  - intros [gr [Hgr Hp]]. apply filter_In in Hgr. destruct Hgr as [Hgr Hc].
    apply andb_prop in Hc. destruct Hc as [Hr Hga]. apply Nat.eqb_eq in Hr.
    apply in_map_iff in Hp. destruct Hp as [m [Hp Hm]].
    apply filter_In in Hm. destruct Hm as [Hm Hc].
    apply andb_prop in Hc. destruct Hc as [Hc Ha]. apply andb_prop in Hc.
    destruct Hc as [Hg Hu]. apply Nat.eqb_eq in Hg, Hu.
    exists gr, m. rewrite Hu in Ha. auto 10.
  - intros [gr [m (Hgr & Hm & Hr & Hp & Hga & Hg & Hu & Ha)]]. exists gr. split.
    + apply filter_In. split; [assumption|]. rewrite Hr, Hga, Nat.eqb_refl. reflexivity.
    + apply in_map_iff. exists m. split; [assumption|]. apply filter_In.
      split; [assumption|]. rewrite Hg, Hu, Ha, !Nat.eqb_refl. reflexivity.
Qed.

(** C9.  [get_combined_privilege] answers OWNER for a superuser whatever
    the grants and flags; for any other user it answers the minimum
    (strongest) level over the direct grants to the active user and the
    grants to active groups of which the active user is a member: it is
    below every such grant, it is the level of one of them when there is
    one, and it is NONE when there is none. *)
Theorem get_combined_privilege_minimum (db : DB) (r u : nat)
    (Hvalid : stored_privileges_valid db) :
  (is_superuser (auth_user db u) = true ->
     ResourceAccess.get_combined_privilege db r u = OWNER) /\
  (is_superuser (auth_user db u) = false ->
     (forall p, applicable_grant db r u p ->
                ResourceAccess.get_combined_privilege db r u <= p) /\
     ((exists p, applicable_grant db r u p) ->
        applicable_grant db r u (ResourceAccess.get_combined_privilege db r u)) /\
     ((forall p, ~ applicable_grant db r u p) ->
        ResourceAccess.get_combined_privilege db r u = NONE)).
Proof.
  unfold ResourceAccess.get_combined_privilege. split; intros Hsu; rewrite Hsu.
  - reflexivity.
  - assert (Hbound : forall p, applicable_grant db r u p -> p <= VIEW).
    { destruct Hvalid as (Hu & Hg & _).
      intros p [[row (Hin & _ & _ & Hp & _)] | [gr [m (Hin & _ & _ & Hp & _)]]].
      - specialize (Hu row Hin). rewrite Hp in Hu. unfold PRIVILEGE_CHOICES in Hu.
        simpl in Hu. unfold OWNER, CHANGE, VIEW in *. lia.
      - specialize (Hg gr Hin). rewrite Hp in Hg. unfold PRIVILEGE_CHOICES in Hg.
        simpl in Hg. unfold OWNER, CHANGE, VIEW in *. lia. }
    destruct (aggregate_Min (ResourceAccess.user_priv_rows db r u)) as [a|] eqn:Ea;
      destruct (aggregate_Min (ResourceAccess.group_priv_rows db r u)) as [b|] eqn:Eb;
      try (apply aggregate_Min_some in Ea; destruct Ea as [Ea1 Ea2];
           apply user_priv_rows_spec in Ea1);
      try (apply aggregate_Min_some in Eb; destruct Eb as [Eb1 Eb2];
           apply group_priv_rows_spec in Eb1);
      try (apply aggregate_Min_none in Ea);
      try (apply aggregate_Min_none in Eb).
    + split; [|split].
      * intros p [Hp|Hp].
        -- apply user_priv_rows_spec in Hp. specialize (Ea2 p Hp). lia.
        -- apply group_priv_rows_spec in Hp. specialize (Eb2 p Hp). lia.
      * intros _. destruct (Z.min_spec a b) as [[_ ->]|[_ ->]];
          [left | right]; assumption.
      * intros Hno. exfalso. apply (Hno a). now left.
    + split; [|split].
      * intros p [Hp|Hp].
        -- apply user_priv_rows_spec in Hp. specialize (Ea2 p Hp). lia.
        -- apply group_priv_rows_spec in Hp. rewrite Eb in Hp. contradiction.
      * intros _. assert (a <= VIEW) by (apply Hbound; now left).
        unfold NONE, VIEW in *. rewrite Z.min_l by lia. now left.
      * intros Hno. exfalso. apply (Hno a). now left.
    + split; [|split].
      * intros p [Hp|Hp].
        -- apply user_priv_rows_spec in Hp. rewrite Ea in Hp. contradiction.
        -- apply group_priv_rows_spec in Hp. specialize (Eb2 p Hp). lia.
      * intros _. assert (b <= VIEW) by (apply Hbound; now right).
        unfold NONE, VIEW in *. rewrite Z.min_r by lia. now right.
      * intros Hno. exfalso. apply (Hno b). now right.
    + split; [|split].
      * intros p [Hp|Hp].
        -- apply user_priv_rows_spec in Hp. rewrite Ea in Hp. contradiction.
        -- apply group_priv_rows_spec in Hp. rewrite Eb in Hp. contradiction.
      * intros [p [Hp|Hp]].
        -- apply user_priv_rows_spec in Hp. rewrite Ea in Hp. contradiction.
        -- apply group_priv_rows_spec in Hp. rewrite Eb in Hp. contradiction.
      * reflexivity.
Qed.

Lemma get_combined_privilege_minimum_witness :
  stored_privileges_valid change_holders_db /\
  ResourceAccess.get_combined_privilege change_holders_db res bob <= CHANGE.
Proof.
  assert (Hvalid : stored_privileges_valid change_holders_db).
  { unfold stored_privileges_valid; simpl.
    repeat split; intros row H; repeat (destruct H as [<-|H]; [simpl; tauto|]);
      contradiction. }
  split; [exact Hvalid|].
  apply (proj2 (get_combined_privilege_minimum change_holders_db res bob Hvalid));
    [reflexivity|].
  left. exists (mkURP CHANGE bob res alice). simpl. tauto.
Defined.

(** C6.  With both [immutable] and [public] set the effective privilege
    is VIEW whatever the grants; with neither set it is the combined
    privilege; and applying the public cap before the immutable floor
    gives the same answer as the order the method uses. *)
Theorem get_effective_privilege_flags (db : DB) (r u : nat) :
  (ra_immutable (raccess db r) = true -> ra_public (raccess db r) = true ->
     ResourceAccess.get_effective_privilege db r u = VIEW) /\
  (ra_immutable (raccess db r) = false -> ra_public (raccess db r) = false ->
     ResourceAccess.get_effective_privilege db r u
     = ResourceAccess.get_combined_privilege db r u) /\
  ResourceAccess.get_effective_privilege db r u
  = effective_privilege_public_first db r u.
Proof.
  unfold ResourceAccess.get_effective_privilege, effective_privilege_public_first.
  split; [|split].
  - intros -> ->. unfold VIEW. lia.
  - intros -> ->. reflexivity.
  - destruct (ra_immutable (raccess db r)), (ra_public (raccess db r));
      unfold VIEW; lia.
Qed.

Lemma get_effective_privilege_flags_witness :
  ResourceAccess.get_effective_privilege change_holders_db res dave
  = ResourceAccess.get_combined_privilege change_holders_db res dave.
Proof.
  apply (proj1 (proj2 (get_effective_privilege_flags change_holders_db res dave)));
    reflexivity.
Defined.

(** ** Ownership *)

Lemma owns_resource_spec db u r :
  owns_resource db u r = true <-> owner_grant_resource db u r.
Proof.
  unfold owns_resource, owner_grant_resource.
  match goal with |- context [exists_ ?q] => destruct (exists_ q) eqn:E end.
  - apply exists_filter_true in E. destruct E as [row [Hin Hc]].
    apply andb_prop in Hc. destruct Hc as [Hc Hu]. apply andb_prop in Hc.
    destruct Hc as [Hr Hp]. apply Nat.eqb_eq in Hr, Hu. apply Z.eqb_eq in Hp.
    split; [|reflexivity]. intros _. exists row. auto.
  - split; [discriminate|]. intros [row (Hin & Hr & Hu & Hp)].
    assert (exists_ (filter (fun r0 => Nat.eqb (urp_resource r0) r
                                       && (urp_privilege r0 =? OWNER)
                                       && Nat.eqb (urp_user r0) u) (urp db)) = true).
    { apply exists_filter_true. exists row. split; [assumption|].
      rewrite Hr, Hu, Hp, !Nat.eqb_refl. reflexivity. }
    congruence.
Qed.

Lemma owns_group_spec db u g :
  owns_group db u g = true
  <-> owner_grant_group db u g /\ ga_active (gaccess db g) = true.
Proof.
  unfold owns_group, owner_grant_group.
  destruct (ga_active (gaccess db g)); simpl.
  - match goal with |- context [exists_ ?q] => destruct (exists_ q) eqn:E end.
    + apply exists_filter_true in E. destruct E as [row [Hin Hc]].
      apply andb_prop in Hc. destruct Hc as [Hc Hu]. apply andb_prop in Hc.
      destruct Hc as [Hg Hp]. apply Nat.eqb_eq in Hg, Hu. apply Z.eqb_eq in Hp.
      split; [|reflexivity]. intros _. split; [|reflexivity]. exists row. auto.
    + split; [discriminate|]. intros [[row (Hin & Hg & Hu & Hp)] _].
      assert (exists_ (filter (fun r0 => Nat.eqb (ugp_group r0) g
                                         && (ugp_privilege r0 =? OWNER)
                                         && Nat.eqb (ugp_user r0) u) (ugp db)) = true).
      { apply exists_filter_true. exists row. split; [assumption|].
        rewrite Hg, Hu, Hp, !Nat.eqb_refl. reflexivity. }
      congruence.
  - split; [discriminate|]. intros [_ H]. discriminate.
Qed.

(** C7, as the code has it.  [owns_group] holds exactly when an OWNER
    grant row exists for the principal over the group and the group is
    active; [owns_resource] holds exactly when an OWNER grant row exists
    for the principal over the resource, the resource's active flag not
    being consulted. *)
Theorem owns_iff_owner_grant (db : DB) (u o : nat) :
  (owns_group db u o = true
   <-> owner_grant_group db u o /\ ga_active (gaccess db o) = true) /\
  (owns_resource db u o = true <-> owner_grant_resource db u o).
Proof. split; [apply owns_group_spec | apply owns_resource_spec]. Qed.

(** C7 as stated fails: Alice owns the inactive resource. *)
Lemma owns_resource_ignores_active :
  ~ (forall db u r,
       owns_resource db u r = true
       <-> owner_grant_resource db u r /\ ra_active (raccess db r) = true).
Proof.
  intros H. specialize (H inactive_resource_db alice res).
  assert (E : owns_resource inactive_resource_db alice res = true) by reflexivity.
  apply H in E. destruct E as [_ E]. discriminate E.
Qed.

(** ** Predicates and an inactive requesting user *)

(** C8, as the code has it.  For an inactive requesting user the
    predicates listed return [False] without raising and without touching
    the database; the check-mode unshare and undo-share predicates on a
    resource, which do not read the caller's active flag, never raise
    PermissionDenied either; and the enumeration helpers over a resource
    raise PermissionDenied rather than returning an empty result. *)
Theorem inactive_user_predicates (db : DB) (self g r u : nat) (p : Z)
    (grantor : option nat)
    (Hinactive : is_active (auth_user db self) = false) :
  can_change_group db self g = false /\
  can_view_group db self g = false /\
  can_view_group_metadata db self g = false /\
  can_change_group_flags db self g = false /\
  can_share_group db self g p = false /\
  can_unshare_group_with_user self g u db = (Return false, db) /\
  can_undo_share_group_with_user self g u grantor db = (Return false, db) /\
  can_change_resource db self r = false /\
  can_change_resource_flags db self r = false /\
  can_view_resource db self r = false /\
  can_delete_resource db self r = false /\
  can_share_resource db self r p = false /\
  can_share_resource_with_group db self r g p = false /\
  can_unshare_resource_with_group self r g db = (Return false, db) /\
  (forall message,
     outcome (can_unshare_resource_with_user self r u) db
       <> Raise (PermissionDenied message) /\
     outcome (can_undo_share_resource_with_user self r u grantor) db
       <> Raise (PermissionDenied message)) /\
  get_resource_unshare_users db self r
    = Raise (PermissionDenied "Requesting user is not active") /\
  get_resource_undo_groups db self r
    = Raise (PermissionDenied "Requesting user is not active") /\
  get_resource_unshare_groups db self r
    = Raise (PermissionDenied "Requesting user is not active").
Proof.
  repeat match goal with |- _ /\ _ => split end.
  - unfold can_change_group. now rewrite Hinactive.
  - unfold can_view_group. now rewrite Hinactive.
  - unfold can_view_group_metadata. now rewrite Hinactive.
  - unfold can_change_group_flags. now rewrite Hinactive.
  - unfold can_share_group. now rewrite Hinactive.
  - unfold can_unshare_group_with_user, __handle_unshare_group_with_user, bind, ask.
    now rewrite Hinactive.
  - unfold can_undo_share_group_with_user, __handle_undo_share_group_with_user,
      bind, ask.
    rewrite Hinactive. simpl.
    destruct grantor as [k|]; [|reflexivity].
    repeat match goal with
           | |- context [if ?c then _ else _] => destruct c
           end; reflexivity.
  - unfold can_change_resource. now rewrite Hinactive.
  - unfold can_change_resource_flags. now rewrite Hinactive.
  - unfold can_view_resource. now rewrite Hinactive.
  - unfold can_delete_resource. now rewrite Hinactive.
  - unfold can_share_resource. now rewrite Hinactive.
  - unfold can_share_resource_with_group, can_share_resource.
    rewrite Hinactive. simpl. now destruct (p =? OWNER).
  - unfold can_unshare_resource_with_group, __handle_unshare_resource_with_group,
      bind, ask.
    rewrite Hinactive. simpl. now destruct (negb _).
  - intros message. split.
    + unfold outcome, can_unshare_resource_with_user,
        __handle_unshare_resource_with_user, bind, ask, pass, ret.
      repeat match goal with
             | |- context [if ?c then _ else _] => destruct c
             end; simpl; discriminate.
    + unfold outcome, can_undo_share_resource_with_user,
        __handle_undo_share_resource_with_user, bind, ask, lift, lookup_grantor_User,
        raise.
      destruct grantor; simpl; discriminate.
  - unfold get_resource_unshare_users. now rewrite Hinactive.
  - unfold get_resource_undo_groups. now rewrite Hinactive.
  - unfold get_resource_unshare_groups. now rewrite Hinactive.
Qed.

Lemma inactive_user_predicates_witness :
  can_share_resource (empty_db [] [dave]) dave res VIEW = false.
Proof.
  apply (inactive_user_predicates (empty_db [] [dave]) dave group1 res alice VIEW None).
  reflexivity.
Defined.

(** C8 as stated fails: for the inactive Dave an enumeration helper and
    [can_delete_group] raise PermissionDenied. *)
Lemma inactive_user_raises :
  get_resource_unshare_users (empty_db [] [dave]) dave res
    = Raise (PermissionDenied "Requesting user is not active") /\
  can_delete_group (empty_db [] [dave]) dave group1
    = Raise (PermissionDenied "Requesting user is not active").
Proof. split; reflexivity. Qed.

(** ** Case analysis of the methods in [M] *)

Ltac norm :=
  cbv beta iota zeta delta [bind ask raise lift atomic pass ret refuse modify fst snd
                            outcome after get lookup_grantor_User
                            eq_across_models contains_across_models
                            UserGroupPrivilege_create GroupAccess_create_groupnew
                            urp_get_or_create urp_save urp_delete
                            ugp_get_or_create ugp_save ugp_delete grp_delete];
  cbn [auth_user gaccess raccess auth_group ugp urp grp set_ugp set_urp set_grp negb].

Ltac break_step :=
  match goal with
  | |- context [match ?q with nil => _ | cons _ _ => _ end] =>
      destruct q as [|? [|? ?]] eqn:?; norm
  | |- context [if ?c then _ else _] => destruct c eqn:?; norm
  end.

(** ** Sharing a resource: the predicate against the action *)




(** ** What a completed share leaves in the grant table *)

(** [share_resource_with_user] never completes and never writes: a call
    that passes the guards stops at
    [get_or_create(..., grantor=self.user)]. *)
Lemma share_resource_with_user_raises db self r u p :
  exists e, share_resource_with_user self r u p db = (Raise e, db).
Proof.
  unfold share_resource_with_user. norm.
  repeat (break_step; try (eexists; reflexivity)).
Qed.

(** [share_group_with_user] completes only by updating the grant row the
    caller already holds for the grantee. *)
Lemma share_group_with_user_returns db self g u p db' :
  share_group_with_user self g u p db = (Return tt, db') ->
  exists record t,
    filter (fun row => Nat.eqb (ugp_group row) g
                       && Nat.eqb (ugp_user row) u
                       && Nat.eqb (ugp_grantor row) self) (ugp db) = [record]
    /\ t = map (fun row => if Nat.eqb (ugp_group row) (ugp_group record)
                              && Nat.eqb (ugp_user row) (ugp_user record)
                              && Nat.eqb (ugp_grantor row) (ugp_grantor record)
                           then mkUGP p (ugp_user row) (ugp_group row)
                                      (ugp_grantor row)
                           else row) (ugp db)
    /\ is_active (auth_user db self) = true
    /\ ugp db' =
       if owns_group (set_ugp t db) self g || is_superuser (auth_user db self)
       then exclude (fun row => Nat.eqb (ugp_group row) g
                                && Nat.eqb (ugp_user row) u
                                && (ugp_privilege row <? p)) t
       else t.
Proof.
  unfold share_group_with_user. norm.
  destruct (is_active (auth_user db self)) eqn:Hactive; simpl negb; norm;
    [|discriminate].
  repeat (break_step; try discriminate).
  all: intros [= <-]; do 2 eexists;
    (split; [reflexivity | split; [reflexivity | split; [reflexivity|]]]).
  all: match goal with
       | H : owns_group _ _ _ || _ = _ |- _ => cbn [ugp set_ugp]; rewrite H
       end; reflexivity.
Qed.

Lemma in_exclude {A} (p : A -> bool) (l : list A) (x : A) :
  In x (exclude p l) <-> In x l /\ p x = false.
Proof.
  unfold exclude. rewrite filter_In. now rewrite negb_true_iff.
Qed.

(** C3, as the code has it.  After a share of a group at level [p] by a
    superuser, or by an owner to another user, no grant record for the
    grantee over the group at a level strictly stronger than [p] (a lower
    code) is left, while the records of other grantors at [p] or weaker
    stay. *)
Theorem owner_share_overrides_stronger_grants (db db' : DB) (self o u : nat) (p : Z) :
  share_group_with_user self o u p db = (Return tt, db') ->
  is_superuser (auth_user db self) = true
  \/ (owns_group db self o = true /\ u <> self) ->
  (forall row, In row (ugp db') -> ugp_user row = u -> ugp_group row = o ->
               p <= ugp_privilege row) /\
  (forall row, In row (ugp db) -> ugp_user row = u -> ugp_group row = o ->
               ugp_grantor row <> self -> p <= ugp_privilege row ->
               In row (ugp db')).
Proof.
  intros Hshare Hwho.
  destruct (share_group_with_user_returns _ _ _ _ _ _ Hshare)
    as (record & t & Hf & -> & Hactive & Hdb').
  set (t := map _ (ugp db)) in *.
  assert (Hkept : forall row, In row (ugp db) ->
                    ugp_user row <> u \/ ugp_grantor row <> self -> In row t).
  { intros row Hin Hne.
    assert (Hrec : In record (filter (fun row => Nat.eqb (ugp_group row) o
                        && Nat.eqb (ugp_user row) u
                        && Nat.eqb (ugp_grantor row) self) (ugp db)))
      by (rewrite Hf; now left).
    apply filter_In in Hrec. destruct Hrec as [_ Hc].
    apply andb_prop in Hc. destruct Hc as [Hc Hg]. apply andb_prop in Hc.
    destruct Hc as [Hr Hu]. apply Nat.eqb_eq in Hr, Hu, Hg.
    apply in_map_iff. exists row. split; [|assumption].
    rewrite Hr, Hu, Hg.
    destruct Hne as [Hne|Hne]; apply Nat.eqb_neq in Hne; rewrite Hne;
      now rewrite ?andb_false_r. }
  assert (Hover : owns_group (set_ugp t db) self o
                  || is_superuser (auth_user db self) = true).
  { destruct Hwho as [-> | [Hown Hne]]; [apply orb_true_r|].
    apply orb_true_iff. left. apply owns_group_spec.
    apply owns_group_spec in Hown.
    destruct Hown as [[row (Hin & Hr & Hu & Hp)] Hga].
    split; [|exact Hga].
    exists row. repeat split; try assumption. simpl. apply Hkept; [assumption|].
    left. congruence. }
  rewrite Hover in Hdb'. rewrite Hdb'. split.
  - intros row Hin Hu Hr. apply in_exclude in Hin. destruct Hin as [_ Hc].
    rewrite Hu, Hr, !Nat.eqb_refl in Hc. simpl in Hc. apply Z.ltb_ge in Hc. exact Hc.
  - intros row Hin Hu Hr Hg Hp. apply in_exclude. split.
    + apply Hkept; auto.
    + apply Z.ltb_ge in Hp. rewrite Hp. now rewrite andb_false_r.
Qed.

Lemma owner_share_overrides_stronger_grants_witness :
  In (mkUGP VIEW bob group1 carol)
     (ugp (after (share_group_with_user alice group1 bob CHANGE)
                 group_view_from_carol_db)).
Proof.
  refine (proj2 (owner_share_overrides_stronger_grants
                   group_view_from_carol_db
                   (after (share_group_with_user alice group1 bob CHANGE)
                          group_view_from_carol_db)
                   alice group1 bob CHANGE _ _)
                (mkUGP VIEW bob group1 carol) _ _ _ _ _).
  - reflexivity.
  - right. split; [reflexivity | discriminate].
  - simpl. tauto.
  - reflexivity.
  - reflexivity.
  - discriminate.
  - discriminate.
Defined.

(** C3 as stated fails: after the owner Alice shares [group1] with Bob at
    CHANGE, Bob's VIEW grant from Carol, which is strictly weaker, is still
    in the table. *)
Lemma weaker_grant_survives_owner_share :
  owns_group group_view_from_carol_db alice group1 = true /\
  outcome (share_group_with_user alice group1 bob CHANGE) group_view_from_carol_db
  = Return tt /\
  In (mkUGP VIEW bob group1 carol)
     (ugp (after (share_group_with_user alice group1 bob CHANGE)
                 group_view_from_carol_db)) /\
  CHANGE < VIEW.
Proof. repeat split; simpl; tauto. Qed.


Lemma exclude_none {A} (p : A -> bool) (l : list A) :
  (forall x, p x = false) -> exclude p l = l.
Proof.
  intros H. induction l as [|a l IH]; simpl; [reflexivity|].
  rewrite H. simpl. now rewrite IH.
Qed.

(** The default-grantor undo on a group never deletes a row: its delete
    looks the grantor up as [None]. *)
Lemma undo_share_group_default_grantor_keeps_table db self g u :
  ugp (after (undo_share_group_with_user self g u None) db) = ugp db.
Proof.
  unfold undo_share_group_with_user, __handle_undo_share_group_with_user. norm.
  repeat (break_step; try reflexivity).
  all: apply exclude_none; intros x; cbn [eq_opt]; apply andb_false_r.
Qed.

(** C4 at the failing input.  Alice shared [group1] with Bob at VIEW;
    her undo of that share, called without a grantor, reports success and
    leaves her grant to Bob in the table. *)
Theorem undo_share_group_with_user_keeps_grant :
  In (mkUGP VIEW bob group1 alice) (ugp group_shared_db) /\
  undo_share_group_with_user alice group1 bob None group_shared_db
  = (Return true, group_shared_db).
Proof. split; [simpl; tauto | reflexivity]. Qed.

(** C5 at the failing input.  Alice shared [group1] with Bob at VIEW; her
    undo of that share, called twice in a row without a grantor, reports
    success both times and her grant to Bob is still in the table.  On a
    resource the undo without a grantor neither succeeds nor raises
    PermissionDenied: its lookup of the caller's grant names the old
    column [grantor] with a [User] and raises ValueError, on every call. *)
Theorem undo_share_group_with_user_succeeds_twice :
  In (mkUGP VIEW bob group1 alice) (ugp group_shared_db) /\
  call_all [UndoShareGroupWithUser alice group1 bob None;
            UndoShareGroupWithUser alice group1 bob None] group_shared_db
  = ([Return true; Return true], group_shared_db) /\
  (forall db self r u,
     undo_share_resource_with_user self r u None db = (Raise ValueError, db)).
Proof. repeat split; simpl; tauto. Qed.

(** ** Sharing a group with an inactive grantee *)

Lemma filter_unique_key {A K} (key : A -> K) (pk : A -> bool) (k : K) (l : list A) :
  NoDup (map key l) ->
  (forall x, pk x = true -> key x = k) ->
  filter pk l = [] \/ exists x, filter pk l = [x].
Proof.
  intros Hnd Hk. induction l as [|a l IH]; simpl; [now left|].
  inversion Hnd as [|? ? Hnotin Hnd']; subst.
  destruct (pk a) eqn:Ea.
  - right. exists a. f_equal.
    destruct (filter pk l) as [|b t] eqn:Ef; [reflexivity|].
    exfalso. apply Hnotin.
    assert (Hb : In b (filter pk l)) by (rewrite Ef; now left).
    apply filter_In in Hb. destruct Hb as [Hb1 Hb2].
    rewrite (Hk a Ea), <- (Hk b Hb2). now apply in_map.
  - exact (IH Hnd').
Qed.

Lemma can_share_group_true db self g p :
  can_share_group db self g p = true ->
  is_active (auth_user db self) = true /\
  (negb (owns_group db self g) && negb (ga_shareable (gaccess db g))
   && negb (is_superuser (auth_user db self))) = false /\
  (negb (is_superuser (auth_user db self))
   && negb (exists_ (filter (fun r => Nat.eqb (ugp_group r) g
                                      && Nat.eqb (ugp_user r) self
                                      && (ugp_privilege r <=? p)) (ugp db)))) = false.
Proof.
  unfold can_share_group.
  destruct (is_active (auth_user db self)); simpl; [|discriminate].
  destruct (is_superuser (auth_user db self)); simpl.
  - intros _. now rewrite !andb_false_r.
  - rewrite !andb_true_r.
    destruct (negb (owns_group db self g) && negb (ga_shareable (gaccess db g)));
      [discriminate|].
    destruct (exists_ _); [auto | discriminate].
Qed.

(** C10, as the code has it.  [share_group_with_user] does not read the
    grantee's active flag: for an inactive grantee to whom the caller
    already holds a grant record, and a caller whom [can_share_group]
    admits, it completes and leaves that record at the level asked, unless
    the record is an OWNER grant, the level asked is not OWNER and the
    group has one owner, in which case it raises PermissionDenied("Cannot
    remove last owner of group"); [share_resource_with_user] by the same
    caller raises PermissionDenied("Grantee is not an active user"). *)
Theorem share_group_with_user_inactive_grantee
    (db : DB) (self g r u : nat) (p : Z) (record : UserGroupPrivilege)
    (Hinactive : is_active (auth_user db u) = false)
    (Hcan : can_share_group db self g p = true)
    (Hunique : ugp_unique_together db)
    (Hheld : In record (ugp db))
    (Hkey : ugp_group record = g /\ ugp_user record = u /\ ugp_grantor record = self) :
  (if (ugp_privilege record =? OWNER) && negb (p =? OWNER)
      && (GroupAccess.get_number_of_owners db g =? 1)
   then share_group_with_user self g u p db
        = (Raise (PermissionDenied "Cannot remove last owner of group"), db)
   else exists db', share_group_with_user self g u p db = (Return tt, db')
                    /\ In (mkUGP p u g self) (ugp db')) /\
  share_resource_with_user self r u p db
  = (Raise (PermissionDenied "Grantee is not an active user"), db).
Proof.
  destruct (can_share_group_true _ _ _ _ Hcan) as (Hactive & Hauth & Hpriv).
  destruct Hkey as (Hgr & Hu & Hg).
  assert (Hone : filter (fun r0 => Nat.eqb (ugp_group r0) g && Nat.eqb (ugp_user r0) u
                                   && Nat.eqb (ugp_grantor r0) self) (ugp db) = [record]).
  { assert (Hrec : In record (filter (fun r0 => Nat.eqb (ugp_group r0) g
                        && Nat.eqb (ugp_user r0) u
                        && Nat.eqb (ugp_grantor r0) self) (ugp db))).
    { apply filter_In. split; [exact Hheld|].
      now rewrite Hgr, Hu, Hg, !Nat.eqb_refl. }
    destruct (filter_unique_key
                (fun row => (ugp_user row, ugp_group row, ugp_grantor row))
                (fun r0 => Nat.eqb (ugp_group r0) g && Nat.eqb (ugp_user r0) u
                           && Nat.eqb (ugp_grantor r0) self)
                (u, g, self) (ugp db) Hunique) as [Hnil | [x Hx]].
    { intros x Hx. apply andb_prop in Hx. destruct Hx as [Hx Hg'].
      apply andb_prop in Hx. destruct Hx as [Hgr' Hu'].
      apply Nat.eqb_eq in Hgr', Hu', Hg'. now rewrite Hgr', Hu', Hg'. }
    - rewrite Hnil in Hrec. destruct Hrec.
    - rewrite Hx in Hrec. destruct Hrec as [->|[]]. exact Hx. }
  split.
  - destruct ((ugp_privilege record =? OWNER) && negb (p =? OWNER)
              && (GroupAccess.get_number_of_owners db g =? 1)) eqn:Eguard.
    + unfold share_group_with_user. norm.
      rewrite Hactive, Hauth, Hpriv. norm. rewrite Hone. norm.
      rewrite Eguard. reflexivity.
    + assert (Hdone : exists db',
                 share_group_with_user self g u p db = (Return tt, db')).
      { unfold share_group_with_user. norm.
        rewrite Hactive, Hauth, Hpriv. norm. rewrite Hone. norm.
        rewrite Eguard. norm. break_step; eexists; reflexivity. }
      destruct Hdone as [db' Hdb']. exists db'. split; [exact Hdb'|].
      destruct (share_group_with_user_returns _ _ _ _ _ _ Hdb')
        as (record' & t & Hf & -> & _ & Hugp).
      rewrite Hone in Hf. injection Hf as <-.
      match type of Hugp with
      | _ = if _ then exclude _ ?t else _ =>
          assert (Hin : In (mkUGP p u g self) t)
      end.
      { apply in_map_iff. exists record. split; [|exact Hheld].
        rewrite !Nat.eqb_refl. simpl. now rewrite Hgr, Hu, Hg. }
      rewrite Hugp. destruct (_ || _); [|exact Hin].
      apply in_exclude. split; [exact Hin|]. simpl.
      rewrite Z.ltb_irrefl. apply andb_false_r.
  - unfold share_resource_with_user. norm. now rewrite Hactive, Hinactive.
Qed.

Lemma share_group_with_user_inactive_grantee_witness :
  (exists db',
     share_group_with_user admin group1 dave CHANGE inactive_member_db = (Return tt, db')
     /\ In (mkUGP CHANGE dave group1 admin) (ugp db')) /\
  share_resource_with_user admin res dave CHANGE inactive_member_db
  = (Raise (PermissionDenied "Grantee is not an active user"), inactive_member_db).
Proof.
  refine (share_group_with_user_inactive_grantee
            inactive_member_db admin group1 res dave CHANGE
            (mkUGP VIEW dave group1 admin) _ _ _ _ _).
  - reflexivity.
  - reflexivity.
  - unfold ugp_unique_together. simpl.
    repeat constructor; simpl; intuition discriminate.
  - simpl. tauto.
  - repeat split.
Defined.

(** C10 as stated fails: the superuser is an authorized caller and Dave is
    inactive, yet sharing [group1] with Dave at VIEW raises, because Dave
    holds the group's only OWNER grant. *)
Lemma share_group_with_user_inactive_sole_owner :
  is_active (auth_user inactive_sole_owner_db dave) = false /\
  can_share_group inactive_sole_owner_db admin group1 VIEW = true /\
  share_group_with_user admin group1 dave VIEW inactive_sole_owner_db
  = (Raise (PermissionDenied "Cannot remove last owner of group"),
     inactive_sole_owner_db).
Proof. repeat split. Qed.

(** ** The owner floor *)

(** An exception leaves the database as it was. *)
Lemma call_raise_unchanged (op : Operation) (db db' : DB) (e : Exception) :
  call op db = (Raise e, db') -> db' = db.
Proof.
  destruct op as [self g u p | self g u | self g u [k|] | self r u p | self r u
                  | self r u [k|]];
    cbn [call];
    unfold share_group_with_user, unshare_group_with_user,
      __handle_unshare_group_with_user, undo_share_group_with_user,
      __handle_undo_share_group_with_user, share_resource_with_user,
      unshare_resource_with_user, __handle_unshare_resource_with_user,
      undo_share_resource_with_user, __handle_undo_share_resource_with_user;
    norm;
    repeat (break_step; try discriminate);
    try (intros [= _ <-]; reflexivity); try discriminate.
Qed.

Lemma unshare_resource_with_user_keeps_owner (db : DB) (self r u r' : nat) :
  (exists o, owner_grant_resource db o r') ->
  exists o, owner_grant_resource (after (unshare_resource_with_user self r u) db) o r'.
Proof.
  intros [o Ho].
  unfold unshare_resource_with_user, __handle_unshare_resource_with_user. norm.
  repeat (break_step; try (exists o; exact Ho)).
  unfold exclude in Heqb1 at 1. apply exists_filter_true in Heqb1.
  destruct Heqb1 as [row [Hrow Hother]]. apply filter_In in Hrow.
  destruct Hrow as [Hin Hc]. apply andb_prop in Hc. destruct Hc as [Hr Hp].
  apply Nat.eqb_eq in Hr. apply Z.eqb_eq in Hp.
  destruct (Nat.eq_dec r' r) as [->|Hne].
  - exists (urp_user row), row. repeat split; try assumption.
    cbn [urp set_urp]. apply in_exclude. split; [exact Hin|].
    apply negb_true_iff in Hother. rewrite Hother. apply andb_false_r.
  - destruct Ho as [row0 (Hin0 & Hr0 & Hu0 & Hp0)].
    exists o, row0. repeat split; try assumption.
    cbn [urp set_urp]. apply in_exclude. split; [exact Hin0|].
    rewrite Hr0. apply Nat.eqb_neq in Hne. now rewrite Hne.
Qed.

Lemma undo_share_resource_with_user_keeps_owner
    (db : DB) (self r u r' : nat) (grantor : option nat) :
  (exists o, owner_grant_resource db o r') ->
  exists o,
    owner_grant_resource (after (undo_share_resource_with_user self r u grantor) db) o r'.
Proof.
  intros [o Ho].
  unfold undo_share_resource_with_user, __handle_undo_share_resource_with_user.
  destruct grantor as [k|]; norm; exists o; exact Ho.
Qed.

(** C2 at the failing inputs.  [group1] has Alice as its one owner and
    the superuser holds a VIEW grant of its own making to her: the
    superuser's share of the group with Alice at VIEW completes and
    deletes her OWNER row, leaving the group without an owner.  Without
    a superuser: Alice and Bob own [group1] and Bob holds VIEW grants of
    his own making to both; his shares at VIEW with Alice and then with
    himself complete, the second removing the only owner left. *)
Theorem owner_floor_broken_by_override :
  (GroupAccess.get_number_of_owners owner_with_admin_view_db group1 = 1 /\
   outcome (share_group_with_user admin group1 alice VIEW) owner_with_admin_view_db
   = Return tt /\
   GroupAccess.get_number_of_owners
     (after (share_group_with_user admin group1 alice VIEW) owner_with_admin_view_db)
     group1 = 0) /\
  (GroupAccess.get_number_of_owners two_owners_db group1 = 2 /\
   fst (call_all owner_floor_group_shares two_owners_db) = [Return true; Return true] /\
   GroupAccess.get_number_of_owners
     (snd (call_all [ShareGroupWithUser bob group1 alice VIEW] two_owners_db)) group1
   = 1 /\
   GroupAccess.get_number_of_owners
     (snd (call_all owner_floor_group_shares two_owners_db)) group1 = 0).
Proof. repeat split. Qed.

(** * Further properties of the access control methods *)

Ltac norm_all :=
  cbv beta iota zeta delta [bind ask raise lift atomic pass ret refuse modify fst snd
                            outcome after get lookup_grantor_User
                            eq_across_models contains_across_models
                            UserGroupPrivilege_create GroupAccess_create_groupnew
                            urp_get_or_create urp_save urp_delete
                            ugp_get_or_create ugp_save ugp_delete
                            grp_get_or_create grp_save grp_delete];
  cbn [auth_user gaccess raccess auth_group ugp urp grp set_ugp set_urp set_grp negb].

Ltac break_all :=
  match goal with
  | |- context [match ?q with nil => _ | cons _ _ => _ end] =>
      destruct q as [|? [|? ?]] eqn:?; norm_all
  | |- context [if ?c then _ else _] => destruct c eqn:?; norm_all
  end.

Ltac unfold_calls :=
  cbn [call];
  unfold share_group_with_user, unshare_group_with_user,
    __handle_unshare_group_with_user, undo_share_group_with_user,
    __handle_undo_share_group_with_user, share_resource_with_user,
    unshare_resource_with_user, __handle_unshare_resource_with_user,
    undo_share_resource_with_user, __handle_undo_share_resource_with_user.

(** ** What the share, unshare and undo-share actions leave alone *)

(** X2.  None of the six actions changes a user row, a group or resource
    flag, the set of groups or the group-resource grants; an action on a
    group leaves the user-resource grants alone and an action on a resource
    leaves the memberships alone. *)
Theorem call_frame (op : Operation) (db : DB) :
  auth_user (snd (call op db)) = auth_user db /\
  gaccess (snd (call op db)) = gaccess db /\
  raccess (snd (call op db)) = raccess db /\
  auth_group (snd (call op db)) = auth_group db /\
  grp (snd (call op db)) = grp db /\
  match op with
  | ShareGroupWithUser _ _ _ _ | UnshareGroupWithUser _ _ _
  | UndoShareGroupWithUser _ _ _ _ => urp (snd (call op db)) = urp db
  | ShareResourceWithUser _ _ _ _ | UnshareResourceWithUser _ _ _
  | UndoShareResourceWithUser _ _ _ _ => ugp (snd (call op db)) = ugp db
  end.
Proof.
  destruct op as [self g u p | self g u | self g u [k|] | self r u p | self r u
                  | self r u [k|]];
    unfold_calls; norm;
    repeat (break_step; try (repeat split; reflexivity));
    repeat split; reflexivity.
Qed.

(** ** The check and the action of a check / do pair *)

Ltac solve_agrees :=
  unfold agrees; norm_all; repeat break_all;
  (split; [reflexivity|];
   split; split;
   solve [ intros _; eexists; reflexivity
         | intros [? [=]]
         | intros [=]
         | reflexivity ]).

(** X3.  The predicate of each check / do pair answers for its action:
    [can_unshare_*] and [can_undo_share_*] change nothing, answer [True]
    exactly when the action completes, and answer [False] exactly when the
    action raises PermissionDenied. *)
Theorem check_agrees_with_action (db : DB) (self o u : nat) (grantor : option nat) :
  agrees (can_unshare_group_with_user self o u)
         (unshare_group_with_user self o u) db /\
  agrees (can_undo_share_group_with_user self o u grantor)
         (undo_share_group_with_user self o u grantor) db /\
  agrees (can_unshare_resource_with_user self o u)
         (unshare_resource_with_user self o u) db /\
  agrees (can_undo_share_resource_with_user self o u grantor)
         (undo_share_resource_with_user self o u grantor) db /\
  agrees (can_unshare_resource_with_group self o u)
         (unshare_resource_with_group self o u) db.
Proof.
  repeat match goal with |- _ /\ _ => split end.
  - unfold can_unshare_group_with_user, unshare_group_with_user,
      __handle_unshare_group_with_user. solve_agrees.
  - unfold can_undo_share_group_with_user, undo_share_group_with_user,
      __handle_undo_share_group_with_user. destruct grantor; solve_agrees.
  - unfold can_unshare_resource_with_user, unshare_resource_with_user,
      __handle_unshare_resource_with_user. solve_agrees.
  - unfold can_undo_share_resource_with_user, undo_share_resource_with_user,
      __handle_undo_share_resource_with_user. destruct grantor; solve_agrees.
  - unfold can_unshare_resource_with_group, unshare_resource_with_group,
      __handle_unshare_resource_with_group. solve_agrees.
Qed.

(** ** Sharing a group: the predicate against the action *)

(** X4.  [can_share_group] is necessary for [share_group_with_user] to
    complete: when it answers [False] the action raises PermissionDenied
    for every grantee and changes nothing; and when it answers [True] the
    only PermissionDenied the action can raise is the refusal to demote
    the last owner. *)
Theorem can_share_group_necessary (db : DB) (self g u : nat) (p : Z) :
  (can_share_group db self g p = false ->
     exists message,
       share_group_with_user self g u p db = (Raise (PermissionDenied message), db)) /\
  (outcome (share_group_with_user self g u p) db = Return tt ->
     can_share_group db self g p = true) /\
  (can_share_group db self g p = true ->
   forall message,
     outcome (share_group_with_user self g u p) db = Raise (PermissionDenied message) ->
     message = "Cannot remove last owner of group").
Proof.
  assert (H1 : can_share_group db self g p = false ->
     exists message,
       share_group_with_user self g u p db = (Raise (PermissionDenied message), db)).
  { unfold can_share_group, share_group_with_user. norm.
    destruct (is_active (auth_user db self)); cbn [negb];
      [|intros _; eexists; reflexivity].
    destruct (is_superuser (auth_user db self)); [discriminate|].
    rewrite !andb_true_r. cbn [negb andb].
    destruct (negb (owns_group db self g) && negb (ga_shareable (gaccess db g)));
      [intros _; eexists; reflexivity|].
    destruct (exists_ _); [discriminate|].
    intros _. eexists. reflexivity. }
  split; [exact H1|]. split.
  - intros Hout. destruct (can_share_group db self g p) eqn:E; [reflexivity|].
    destruct (H1 eq_refl) as [message Hm]. unfold outcome in Hout.
    rewrite Hm in Hout. discriminate.
  - clear H1. intros Hcan message.
    destruct (can_share_group_true _ _ _ _ Hcan) as (Hactive & Hauth & Hpriv).
    unfold share_group_with_user. norm. rewrite Hactive, Hauth, Hpriv. norm.
    repeat (break_step; try discriminate; try (intros [= <-]; reflexivity)).
Qed.

Lemma can_share_group_necessary_witness :
  can_share_group group_shared_db alice group1 VIEW = true.
Proof.
  apply (proj1 (proj2 (can_share_group_necessary group_shared_db alice group1 bob VIEW))).
  reflexivity.
Defined.

(** ** Membership of lists of keys *)

Lemma contains_In (x : nat) (l : list nat) : contains x l = true <-> In x l.
Proof.
  unfold contains. rewrite existsb_exists. split.
  - intros [y [Hy He]]. apply Nat.eqb_eq in He. now subst.
  - intros H. exists x. split; [assumption | apply Nat.eqb_refl].
Qed.

Lemma contains_false (x : nat) (l : list nat) : contains x l = false <-> ~ In x l.
Proof.
  rewrite <- contains_In. destruct (contains x l); split; congruence.
Qed.

Lemma distinct_In (x : nat) (l : list nat) : In x (distinct l) <-> In x l.
Proof. unfold distinct. apply nodup_In. Qed.

(** ** Removing a user from a group or a resource *)

(** X5.  Unsharing a group with a user never leaves a group that had an
    owner without one. *)
Theorem unshare_group_with_user_keeps_owner (db : DB) (self g u g' : nat) :
  (exists o, owner_grant_group db o g') ->
  exists o, owner_grant_group (after (unshare_group_with_user self g u) db) o g'.
Proof.
  intros [o Ho].
  unfold unshare_group_with_user, __handle_unshare_group_with_user. norm.
  repeat (break_step; try (exists o; exact Ho)).
  unfold exclude in Heqb2 at 1. apply exists_filter_true in Heqb2.
  destruct Heqb2 as [row [Hrow Hother]]. apply filter_In in Hrow.
  destruct Hrow as [Hin Hc]. apply andb_prop in Hc. destruct Hc as [Hg Hp].
  apply Nat.eqb_eq in Hg. apply Z.eqb_eq in Hp.
  destruct (Nat.eq_dec g' g) as [->|Hne].
  - exists (ugp_user row), row. repeat split; try assumption.
    cbn [ugp set_ugp]. apply in_exclude. split; [exact Hin|].
    apply negb_true_iff in Hother. rewrite Hother. apply andb_false_r.
  - destruct Ho as [row0 (Hin0 & Hg0 & Hu0 & Hp0)].
    exists o, row0. repeat split; try assumption.
    cbn [ugp set_ugp]. apply in_exclude. split; [exact Hin0|].
    rewrite Hg0. apply Nat.eqb_neq in Hne. now rewrite Hne.
Qed.

Lemma unshare_group_with_user_keeps_owner_witness :
  exists o, owner_grant_group
              (after (unshare_group_with_user alice group1 bob) group_shared_db)
              o group1.
Proof.
  apply (unshare_group_with_user_keeps_owner group_shared_db alice group1 bob group1).
  exists alice, (mkUGP OWNER alice group1 alice). simpl. tauto.
Defined.

Lemma filter_exclude_disjoint {A} (p q : A -> bool) (l : list A) :
  (forall x, p x = true -> q x = true) -> filter p (exclude q l) = [].
Proof.
  intros H. induction l as [|a l IH]; simpl; [reflexivity|].
  destruct (q a) eqn:Eq; simpl; [exact IH|].
  destruct (p a) eqn:Ep; [|exact IH].
  rewrite (H a Ep) in Eq. discriminate.
Qed.

(** X7.  When [unshare_resource_with_user] completes, every grant row of
    that user over that resource is gone, whoever granted it, and no other
    row is touched; the user no longer holds the resource, has no direct
    privilege left (NONE when no group gives any and the user is no
    superuser), and a second unshare is refused. *)
Theorem unshare_resource_with_user_removes_access (db db' : DB) (self r u : nat) :
  unshare_resource_with_user self r u db = (Return true, db') ->
  urp db' = exclude (fun row => Nat.eqb (urp_resource row) r
                                && Nat.eqb (urp_user row) u) (urp db) /\
  contains u (ResourceAccess.holding_users db' r) = false /\
  (is_superuser (auth_user db' u) = false ->
   ResourceAccess.group_priv_rows db' r u = [] ->
   ResourceAccess.get_combined_privilege db' r u = NONE) /\
  unshare_resource_with_user self r u db'
  = (Raise (PermissionDenied "User does not have access to resource"), db').
Proof.
  unfold unshare_resource_with_user at 1, __handle_unshare_resource_with_user. norm.
  repeat (break_step; try discriminate).
  intros [= <-].
  assert (Hnot : contains u
            (ResourceAccess.holding_users
               (set_urp (exclude (fun row => Nat.eqb (urp_resource row) r
                                             && Nat.eqb (urp_user row) u) (urp db)) db) r)
          = false).
  { apply contains_false. unfold ResourceAccess.holding_users. rewrite distinct_In.
    cbn [urp set_urp]. intros Hin. apply in_map_iff in Hin.
    destruct Hin as [row [Hu Hin]]. apply filter_In in Hin. destruct Hin as [Hin Hr].
    apply in_exclude in Hin. destruct Hin as [_ Hc].
    rewrite Hr, Hu, Nat.eqb_refl in Hc. discriminate. }
  split; [reflexivity|]. split; [exact Hnot|]. split.
  - intros Hsu Hgroup. unfold ResourceAccess.get_combined_privilege.
    rewrite Hsu, Hgroup. unfold ResourceAccess.user_priv_rows. cbn [urp set_urp auth_user].
    replace (filter _ (exclude _ (urp db))) with (@nil UserResourcePrivilege);
      [reflexivity|].
    symmetry. apply filter_exclude_disjoint. intros x Hx.
    apply andb_prop in Hx. destruct Hx as [Hx Hr]. apply andb_prop in Hx.
    destruct Hx as [Hu _]. now rewrite Hr, Hu.
  - unfold unshare_resource_with_user, __handle_unshare_resource_with_user. norm.
    rewrite Hnot. reflexivity.
Qed.

Lemma unshare_resource_with_user_removes_access_witness :
  contains bob
    (ResourceAccess.holding_users
       (after (unshare_resource_with_user alice res bob) change_holders_db) res)
  = false.
Proof.
  apply (unshare_resource_with_user_removes_access change_holders_db _ alice res bob).
  reflexivity.
Defined.

(** X8.  When [unshare_group_with_user] completes, every membership row of
    that user in that group is gone and no other row is touched; the user
    is no longer a member and a second unshare is refused. *)
Theorem unshare_group_with_user_removes_member (db db' : DB) (self g u : nat) :
  unshare_group_with_user self g u db = (Return true, db') ->
  ugp db' = exclude (fun row => Nat.eqb (ugp_group row) g
                                && Nat.eqb (ugp_user row) u) (ugp db) /\
  contains u (GroupAccess.members db' g) = false /\
  (is_active (auth_user db self) = true /\
   unshare_group_with_user self g u db'
   = (Raise (PermissionDenied "User is not a member of the group"), db')).
Proof.
  unfold unshare_group_with_user at 1, __handle_unshare_group_with_user. norm.
  destruct (is_active (auth_user db self)) eqn:Hactive; cbn [negb]; [|discriminate].
  repeat (break_step; try discriminate).
  intros [= <-].
  assert (Hnot : contains u
            (GroupAccess.members
               (set_ugp (exclude (fun row => Nat.eqb (ugp_group row) g
                                             && Nat.eqb (ugp_user row) u) (ugp db)) db) g)
          = false).
  { apply contains_false. unfold GroupAccess.members. rewrite distinct_In.
    cbn [ugp set_ugp]. intros Hin. apply in_map_iff in Hin.
    destruct Hin as [row [Hu Hin]]. apply filter_In in Hin. destruct Hin as [Hin Hr].
    apply in_exclude in Hin. destruct Hin as [_ Hc].
    rewrite Hr, Hu, Nat.eqb_refl in Hc. discriminate. }
  split; [reflexivity|]. split; [exact Hnot|]. split; [reflexivity|].
  unfold unshare_group_with_user, __handle_unshare_group_with_user. norm.
  rewrite Hactive, Hnot. reflexivity.
Qed.

Lemma unshare_group_with_user_removes_member_witness :
  contains bob
    (GroupAccess.members
       (after (unshare_group_with_user alice group1 bob) group_shared_db) group1)
  = false.
Proof.
  apply (unshare_group_with_user_removes_member group_shared_db _ alice group1 bob).
  reflexivity.
Defined.

(** ** Invariants of the grant tables *)

Lemma NoDup_map_exclude {A K} (key : A -> K) (p : A -> bool) (l : list A) :
  NoDup (map key l) -> NoDup (map key (exclude p l)).
Proof.
  unfold exclude. induction l as [|a l IH]; simpl; [auto|].
  intros Hnd. inversion Hnd as [|? ? Hnotin Hnd']; subst.
  destruct (negb (p a)); simpl; [|auto].
  constructor; [|auto]. intros Hin. apply Hnotin.
  apply in_map_iff in Hin. destruct Hin as [x [Hk Hx]].
  apply filter_In in Hx. rewrite <- Hk. apply in_map. tauto.
Qed.

Lemma ugp_updated_keys (l : list UserGroupPrivilege) (c : UserGroupPrivilege -> bool)
    (p : Z) :
  map (fun row => (ugp_user row, ugp_group row, ugp_grantor row))
      (map (fun row => if c row
                       then mkUGP p (ugp_user row) (ugp_group row) (ugp_grantor row)
                       else row) l)
  = map (fun row => (ugp_user row, ugp_group row, ugp_grantor row)) l.
Proof.
  rewrite map_map. apply map_ext. intros row. now destruct (c row).
Qed.

Ltac solve_unique :=
  repeat first
    [ assumption
    | apply NoDup_map_exclude
    | rewrite ugp_updated_keys ].

Lemma call_keeps_unique (op : Operation) (db : DB) :
  ugp_unique_together db /\ urp_unique_together db ->
  ugp_unique_together (snd (call op db)) /\ urp_unique_together (snd (call op db)).
Proof.
  unfold ugp_unique_together, urp_unique_together. intros [Hg Hr].
  destruct op as [self g u p | self g u | self g u [k|] | self r u p | self r u
                  | self r u [k|]];
    unfold_calls; norm;
    repeat (break_step; try (split; assumption));
    split; cbn [ugp urp set_ugp set_urp]; solve_unique.
Qed.

(** X9.  The uniqueness of a grant row per user, object and grantor
    survives every sequence of share, unshare and undo-share calls. *)
Theorem call_all_keeps_unique_together (ops : list Operation) (db : DB) :
  ugp_unique_together db -> urp_unique_together db ->
  ugp_unique_together (snd (call_all ops db))
  /\ urp_unique_together (snd (call_all ops db)).
Proof.
  intros Hg Hr. assert (H : ugp_unique_together db /\ urp_unique_together db)
    by (split; assumption).
  clear Hg Hr. revert db H. induction ops as [|op ops IH]; intros db H; [exact H|].
  cbn [call_all]. pose proof (call_keeps_unique op db H) as Hstep.
  destruct (call op db) as [result db1]. cbn [snd] in Hstep.
  specialize (IH db1 Hstep). destruct (call_all ops db1) as [results db2].
  exact IH.
Qed.

Lemma call_all_keeps_unique_together_witness :
  ugp_unique_together (snd (call_all owner_floor_group_shares two_owners_db)).
Proof.
  apply (call_all_keeps_unique_together owner_floor_group_shares two_owners_db).
  - unfold ugp_unique_together. simpl.
    repeat constructor; simpl; intuition discriminate.
  - constructor.
Defined.

Lemma urp_valid_exclude (l : list UserResourcePrivilege) c :
  (forall row, In row l -> In (urp_privilege row) PRIVILEGE_CHOICES) ->
  forall row, In row (exclude c l) -> In (urp_privilege row) PRIVILEGE_CHOICES.
Proof. intros H row Hin. apply in_exclude in Hin. now apply H. Qed.

Lemma ugp_valid_exclude (l : list UserGroupPrivilege) c :
  (forall row, In row l -> In (ugp_privilege row) PRIVILEGE_CHOICES) ->
  forall row, In row (exclude c l) -> In (ugp_privilege row) PRIVILEGE_CHOICES.
Proof. intros H row Hin. apply in_exclude in Hin. now apply H. Qed.

Lemma ugp_valid_update (l : list UserGroupPrivilege)
    (c : UserGroupPrivilege -> bool) (p : Z) :
  (forall row, In row l -> In (ugp_privilege row) PRIVILEGE_CHOICES) ->
  In p PRIVILEGE_CHOICES ->
  forall row,
    In row (map (fun row : UserGroupPrivilege => if c row
                            then mkUGP p (ugp_user row) (ugp_group row) (ugp_grantor row)
                            else row) l) ->
    In (ugp_privilege row) PRIVILEGE_CHOICES.
Proof.
  intros H Hp row Hin. apply in_map_iff in Hin. destruct Hin as [row0 [<- Hin]].
  destruct (c row0); [exact Hp | now apply H].
Qed.

Ltac solve_valid :=
  repeat first
    [ assumption
    | apply urp_valid_exclude
    | apply ugp_valid_exclude
    | apply ugp_valid_update; [|assumption] ].

Lemma call_keeps_valid (op : Operation) (db : DB) :
  op_level_valid op -> stored_privileges_valid db ->
  stored_privileges_valid (snd (call op db)).
Proof.
  unfold stored_privileges_valid. intros Hop (Hr & Hgr & Hg).
  destruct op as [self g u p | self g u | self g u [k|] | self r u p | self r u
                  | self r u [k|]];
    cbn [op_level_valid] in Hop;
    unfold_calls; norm;
    repeat (break_step; try (repeat split; assumption));
    (split; [|split]); cbn [ugp urp grp set_ugp set_urp]; solve_valid.
Qed.

(** X10.  Every sequence of share, unshare and undo-share calls whose
    shares ask for OWNER, CHANGE or VIEW keeps the stored privileges among
    those three levels. *)
Theorem call_all_keeps_privileges_valid (ops : list Operation) (db : DB) :
  Forall op_level_valid ops ->
  stored_privileges_valid db ->
  stored_privileges_valid (snd (call_all ops db)).
Proof.
  intros Hops. revert db. induction Hops as [|op ops Hop Hops IH]; intros db H;
    [exact H|].
  cbn [call_all]. pose proof (call_keeps_valid op db Hop H) as Hstep.
  destruct (call op db) as [result db1]. cbn [snd] in Hstep.
  specialize (IH db1 Hstep). destruct (call_all ops db1) as [results db2].
  exact IH.
Qed.

Lemma call_all_keeps_privileges_valid_witness :
  stored_privileges_valid (snd (call_all owner_floor_group_shares two_owners_db)).
Proof.
  apply (call_all_keeps_privileges_valid owner_floor_group_shares two_owners_db).
  - unfold owner_floor_group_shares.
    repeat (constructor; [simpl; tauto|]). constructor.
  - unfold stored_privileges_valid. simpl.
    repeat split; intros row H; repeat (destruct H as [<-|H]; [simpl; tauto|]);
      contradiction.
Defined.

(** ** The calls that pass the guards of [share_resource_with_user] *)

(** X11.  [share_resource_with_user] never completes and never writes:
    every call raises and leaves the database as it was.  A call that
    passes the guards -- [can_share_resource] answers [True], the grantee
    is active, and the caller is an owner or asks for no weaker level than
    the grantee's combined privilege -- raises ValueError, from
    [get_or_create(..., grantor=self.user)]. *)
Theorem share_resource_with_user_never_completes (db : DB) (self r u : nat) (p : Z) :
  (exists e, share_resource_with_user self r u p db = (Raise e, db)) /\
  (can_share_resource db self r p = true ->
   is_active (auth_user db u) = true ->
   ResourceAccess.get_combined_privilege db r self = OWNER
   \/ p <= ResourceAccess.get_combined_privilege db r u ->
   share_resource_with_user self r u p db = (Raise ValueError, db)).
Proof.
  split; [apply share_resource_with_user_raises|].
  intros Hc Hu Hpass. revert Hc.
  unfold can_share_resource, share_resource_with_user. norm. rewrite Hu.
  destruct (is_active (auth_user db self)); simpl negb; norm; [|discriminate].
  do 3 (match goal with
        | |- context [if ?c then _ else _] => destruct c eqn:?; norm
        end; [discriminate|]).
  intros _.
  replace (negb (ResourceAccess.get_combined_privilege db r self =? OWNER)
           && (ResourceAccess.get_combined_privilege db r u <? p)) with false.
  - reflexivity.
  - symmetry. destruct Hpass as [-> | Hge].
    + reflexivity.
    + apply Z.ltb_ge in Hge. rewrite Hge. apply andb_false_r.
Qed.

Lemma share_resource_with_user_never_completes_witness :
  share_resource_with_user alice res bob CHANGE
    (bootstrap_resource alice res (empty_db [] []))
  = (Raise ValueError, bootstrap_resource alice res (empty_db [] [])).
Proof.
  apply (proj2 (share_resource_with_user_never_completes
                  (bootstrap_resource alice res (empty_db [] [])) alice res bob CHANGE)).
  - reflexivity.
  - reflexivity.
  - left. reflexivity.
Defined.

(** ** Sharing a resource with a group *)

(** [share_resource_with_group] completes only by updating the grant row
    the caller already holds for the group. *)
Lemma share_resource_with_group_returns db self r g p db' :
  share_resource_with_group self r g p db = (Return tt, db') ->
  exists record t,
    filter (fun row => Nat.eqb (grp_resource row) r
                       && Nat.eqb (grp_group row) g
                       && Nat.eqb (grp_grantor row) self) (grp db) = [record]
    /\ t = map (fun row => if Nat.eqb (grp_resource row) (grp_resource record)
                              && Nat.eqb (grp_group row) (grp_group record)
                              && Nat.eqb (grp_grantor row) (grp_grantor record)
                           then mkGRP p (grp_group row) (grp_resource row)
                                      (grp_grantor row)
                           else row) (grp db)
    /\ (CHANGE <= p <= VIEW)
    /\ auth_user db' = auth_user db /\ gaccess db' = gaccess db
    /\ ugp db' = ugp db /\ urp db' = urp db
    /\ (grp db' = t
        \/ grp db' = exclude (fun row => Nat.eqb (grp_group row) g
                                         && Nat.eqb (grp_resource row) r
                                         && (grp_privilege row <? p)) t).
Proof.
  unfold share_resource_with_group. norm_all.
  destruct (p =? OWNER) eqn:Ho; norm_all; [discriminate|].
  destruct ((p <? OWNER) || (p >? VIEW)) eqn:Hrange; norm_all; [discriminate|].
  assert (Hp : CHANGE <= p <= VIEW).
  { apply Z.eqb_neq in Ho. apply orb_false_iff in Hrange. destruct Hrange as [H1 H2].
    apply Z.ltb_ge in H1. rewrite Z.gtb_ltb in H2. apply Z.ltb_ge in H2.
    unfold OWNER, CHANGE, VIEW in *. lia. }
  repeat (break_all; try discriminate).
  all: intros [= <-]; do 2 eexists;
    (split; [reflexivity | split; [reflexivity | split; [exact Hp|]]]).
  all: repeat (split; [reflexivity|]).
  all: first [left; reflexivity | right; reflexivity].
Qed.

Lemma share_resource_with_group_row db self r g p db' :
  share_resource_with_group self r g p db = (Return tt, db') ->
  In (mkGRP p g r self) (grp db').
Proof.
  intros Hshare.
  destruct (share_resource_with_group_returns _ _ _ _ _ _ Hshare)
    as (record & t & Hf & -> & _ & _ & _ & _ & _ & Hgrp).
  set (t := map _ (grp db)) in *.
  assert (Hin : In (mkGRP p g r self) t).
  { assert (Hrec : In record (filter (fun row => Nat.eqb (grp_resource row) r
                        && Nat.eqb (grp_group row) g
                        && Nat.eqb (grp_grantor row) self) (grp db)))
      by (rewrite Hf; now left).
    apply filter_In in Hrec. destruct Hrec as [Hin Hc].
    apply andb_prop in Hc. destruct Hc as [Hc Hg]. apply andb_prop in Hc.
    destruct Hc as [Hr Hu]. apply Nat.eqb_eq in Hr, Hu, Hg.
    apply in_map_iff. exists record. split; [|exact Hin].
    rewrite !Nat.eqb_refl. simpl. now rewrite Hr, Hu, Hg. }
  destruct Hgrp as [-> | ->]; [exact Hin|].
  apply in_exclude. split; [exact Hin|]. simpl.
  rewrite Z.ltb_irrefl. apply andb_false_r.
Qed.

(** X13.  When [share_resource_with_group] completes the level is CHANGE
    or VIEW, the caller's grant row to the group at that level is in the
    table, and every active member of the group, the group being active,
    has a combined privilege over the resource at least that strong. *)
Theorem share_resource_with_group_grants (db db' : DB) (self r g m : nat) (p : Z) :
  share_resource_with_group self r g p db = (Return tt, db') ->
  (CHANGE <= p <= VIEW) /\
  In (mkGRP p g r self) (grp db') /\
  (contains m (GroupAccess.members db g) = true ->
   is_active (auth_user db m) = true ->
   ga_active (gaccess db g) = true ->
   ResourceAccess.get_combined_privilege db' r m <= p).
Proof.
  intros Hshare. pose proof (share_resource_with_group_row _ _ _ _ _ _ Hshare) as Hrow.
  destruct (share_resource_with_group_returns _ _ _ _ _ _ Hshare)
    as (record & t & _ & _ & Hp & Haux & Hga & Hugp & _ & _).
  split; [exact Hp|]. split; [exact Hrow|].
  intros Hmember Hactive Hgroup.
  unfold ResourceAccess.get_combined_privilege.
  destruct (is_superuser (auth_user db' m)); [unfold OWNER, CHANGE in *; lia|].
  assert (Hvia : In p (ResourceAccess.group_priv_rows db' r m)).
  { apply group_priv_rows_spec.
    apply contains_In in Hmember. unfold GroupAccess.members in Hmember.
    rewrite distinct_In in Hmember. apply in_map_iff in Hmember.
    destruct Hmember as [row [Hu Hin]]. apply filter_In in Hin.
    destruct Hin as [Hin Hg]. apply Nat.eqb_eq in Hg.
    exists (mkGRP p g r self), row. rewrite Hugp, Hga, Haux. simpl. tauto. }
  destruct (aggregate_Min (ResourceAccess.group_priv_rows db' r m)) as [b|] eqn:Eb.
  - apply aggregate_Min_some in Eb. destruct Eb as [_ Eb]. specialize (Eb p Hvia).
    lia.
  - apply aggregate_Min_none in Eb. rewrite Eb in Hvia. contradiction.
Qed.

(** X14.  Groups never come to own a resource: [share_resource_with_group]
    refuses OWNER, and whatever it is asked it leaves no OWNER row in a
    group-resource table that had none. *)
Theorem share_resource_with_group_never_owner (db : DB) (self r g : nat) (p : Z) :
  share_resource_with_group self r g OWNER db
  = (Raise (PermissionDenied "Groups cannot own resources"), db) /\
  (no_group_owner db ->
   no_group_owner (after (share_resource_with_group self r g p) db)).
Proof.
  split; [reflexivity|].
  intros Hno. unfold after.
  destruct (share_resource_with_group self r g p db) as [[[]|e] db'] eqn:E.
  - destruct (share_resource_with_group_returns _ _ _ _ _ _ E)
      as (record & t & _ & Ht & Hp & _ & _ & _ & _ & Hgrp).
    assert (Ht' : forall row, In row t -> grp_privilege row <> OWNER).
    { rewrite Ht. intros row Hin.
      apply in_map_iff in Hin. destruct Hin as [row0 [<- Hin]].
      destruct (_ && _); [|now apply Hno]. simpl. unfold OWNER, CHANGE in *. lia. }
    intros row Hin. cbn [snd] in Hin. destruct Hgrp as [Hg | Hg]; rewrite Hg in Hin.
    + now apply Ht'.
    + apply in_exclude in Hin. now apply Ht'.
  - revert E. unfold share_resource_with_group. norm_all.
    repeat (break_all; try discriminate); intros [= _ <-]; exact Hno.
Qed.

Lemma share_resource_with_group_grants_witness :
  In (mkGRP CHANGE group1 res alice)
     (grp (after (share_resource_with_group alice res group1 CHANGE)
                 group_holds_resource_db)).
Proof.
  apply (share_resource_with_group_grants
           group_holds_resource_db
           (after (share_resource_with_group alice res group1 CHANGE)
                  group_holds_resource_db)
           alice res group1 alice CHANGE).
  reflexivity.
Defined.

Lemma can_share_resource_with_group_true db self r g p :
  can_share_resource_with_group db self r g p = true ->
  (p =? OWNER) = false /\
  can_share_resource db self r p = true /\
  (negb (contains self (GroupAccess.members db g))
   && negb (is_superuser (auth_user db self))) = false.
Proof.
  unfold can_share_resource_with_group, GroupAccess.get_members.
  destruct (p =? OWNER); [discriminate|].
  destruct (can_share_resource db self r p); cbn [negb]; [|discriminate].
  destruct (_ && _); [discriminate|]. auto.
Qed.

(** X15.  [can_share_resource_with_group] against its action.  When the
    predicate answers [False] the action raises PermissionDenied and
    changes nothing.  When it answers [True] and the level is CHANGE or
    VIEW, the table holding at most one row per group, resource and
    grantor, the action completes if the caller already holds a grant row
    for the group over the resource, and otherwise raises IntegrityError
    and changes nothing; for any other level it raises
    PermissionDenied("Privilege level not valid") although the predicate
    said [True]. *)
Theorem can_share_resource_with_group_against_action
    (db : DB) (self r g : nat) (p : Z) :
  (can_share_resource_with_group db self r g p = false ->
   exists message,
     share_resource_with_group self r g p db = (Raise (PermissionDenied message), db)) /\
  (can_share_resource_with_group db self r g p = true ->
   CHANGE <= p <= VIEW ->
   grp_unique_together db ->
   ((exists row, In row (grp db) /\ grp_group row = g /\ grp_resource row = r
                 /\ grp_grantor row = self) ->
    exists db', share_resource_with_group self r g p db = (Return tt, db')) /\
   ((forall row, In row (grp db) -> grp_group row = g -> grp_resource row = r ->
                 grp_grantor row <> self) ->
    share_resource_with_group self r g p db = (Raise IntegrityError, db))) /\
  (can_share_resource_with_group db self r g p = true ->
   ~ (CHANGE <= p <= VIEW) ->
   share_resource_with_group self r g p db
   = (Raise (PermissionDenied "Privilege level not valid"), db)).
Proof.
  split; [|split].
  - unfold can_share_resource_with_group, share_resource_with_group,
      GroupAccess.get_members. norm_all.
    destruct (p =? OWNER); norm_all; [intros _; eexists; reflexivity|].
    destruct ((p <? OWNER) || (p >? VIEW)); norm_all;
      [intros _; eexists; reflexivity|].
    destruct (can_share_resource db self r p); cbn [negb]; norm_all;
      [|intros _; eexists; reflexivity].
    destruct (_ && _); norm_all; [intros _; eexists; reflexivity | discriminate].
  - intros Hcan Hp Hunique.
    destruct (can_share_resource_with_group_true _ _ _ _ _ Hcan) as (Ho & Hshare & Hm).
    unfold share_resource_with_group. norm_all. rewrite Ho, Hshare, Hm.
    replace ((p <? OWNER) || (p >? VIEW)) with false.
    2:{ symmetry. apply orb_false_iff. rewrite Z.gtb_ltb. split; apply Z.ltb_ge;
        unfold OWNER, CHANGE, VIEW in *; lia. }
    norm_all.
    destruct (filter_unique_key
                (fun row => (grp_group row, grp_resource row, grp_grantor row))
                (fun r0 => Nat.eqb (grp_resource r0) r && Nat.eqb (grp_group r0) g
                           && Nat.eqb (grp_grantor r0) self)
                (g, r, self) (grp db) Hunique) as [Hnil | [record Hone]].
    { intros x Hx. apply andb_prop in Hx. destruct Hx as [Hx Hg].
      apply andb_prop in Hx. destruct Hx as [Hr Hu].
      apply Nat.eqb_eq in Hr, Hu, Hg. now rewrite Hr, Hu, Hg. }
    + rewrite Hnil. norm_all. split; [|reflexivity].
      intros [row (Hin & Hg & Hr & Hs)]. exfalso.
      assert (Hrow : In row (filter (fun r0 => Nat.eqb (grp_resource r0) r
                               && Nat.eqb (grp_group r0) g
                               && Nat.eqb (grp_grantor r0) self) (grp db))).
      { apply filter_In. split; [exact Hin|]. now rewrite Hg, Hr, Hs, !Nat.eqb_refl. }
      rewrite Hnil in Hrow. destruct Hrow.
    + rewrite Hone. norm_all. split.
      * intros _. break_all; eexists; reflexivity.
      * intros Hnone. exfalso.
        assert (Hrec : In record (filter (fun r0 => Nat.eqb (grp_resource r0) r
                                 && Nat.eqb (grp_group r0) g
                                 && Nat.eqb (grp_grantor r0) self) (grp db)))
          by (rewrite Hone; now left).
        apply filter_In in Hrec. destruct Hrec as [Hin Hc].
        apply andb_prop in Hc. destruct Hc as [Hc Hs]. apply andb_prop in Hc.
        destruct Hc as [Hr Hg]. apply Nat.eqb_eq in Hr, Hg, Hs.
        exact (Hnone record Hin Hg Hr Hs).
  - intros Hcan Hp.
    destruct (can_share_resource_with_group_true _ _ _ _ _ Hcan) as (Ho & _ & _).
    unfold share_resource_with_group. norm_all. rewrite Ho.
    replace ((p <? OWNER) || (p >? VIEW)) with true; [reflexivity|].
    symmetry. apply orb_true_iff. rewrite Z.gtb_ltb, !Z.ltb_lt.
    apply Z.eqb_neq in Ho. unfold OWNER, CHANGE, VIEW in *. lia.
Qed.

Lemma can_share_resource_with_group_against_action_witness :
  (exists db',
     share_resource_with_group alice res group1 CHANGE group_holds_resource_db
     = (Return tt, db')) /\
  share_resource_with_group alice res group1 NONE group_and_resource_db
  = (Raise (PermissionDenied "Privilege level not valid"), group_and_resource_db).
Proof.
  split.
  - refine (proj1 (proj1 (proj2 (can_share_resource_with_group_against_action
                                   group_holds_resource_db alice res group1 CHANGE))
                         _ _ _) _).
    + reflexivity.
    + unfold CHANGE, VIEW. lia.
    + unfold grp_unique_together. simpl. constructor; [simpl; tauto | constructor].
    + exists (mkGRP VIEW group1 res alice). simpl. tauto.
  - apply (can_share_resource_with_group_against_action
             group_and_resource_db alice res group1 NONE).
    + reflexivity.
    + unfold CHANGE, NONE, VIEW. lia.
Defined.

(** ** Creating and deleting a group *)







(** ** The view and change predicates against the effective privilege *)

Lemma combined_le_applicable db r u k :
  is_superuser (auth_user db u) = false ->
  ResourceAccess.get_combined_privilege db r u <= k -> k < NONE ->
  exists p, p <= k /\ applicable_grant db r u p.
Proof.
  unfold ResourceAccess.get_combined_privilege. intros -> Hle Hk.
  destruct (aggregate_Min (ResourceAccess.user_priv_rows db r u)) as [a|] eqn:Ea;
    destruct (aggregate_Min (ResourceAccess.group_priv_rows db r u)) as [b|] eqn:Eb;
    try (apply aggregate_Min_some in Ea; destruct Ea as [Ea _];
         apply user_priv_rows_spec in Ea);
    try (apply aggregate_Min_some in Eb; destruct Eb as [Eb _];
         apply group_priv_rows_spec in Eb).
  - destruct (Z.min_spec a b) as [[_ E]|[_ E]]; rewrite E in Hle.
    + exists a. split; [assumption | now left].
    + exists b. split; [assumption | now right].
  - exists a. split; [lia | now left].
  - exists b. split; [lia | now right].
  - unfold NONE in *. lia.
Qed.

Lemma applicable_combined_le db r u p :
  is_superuser (auth_user db u) = false ->
  applicable_grant db r u p ->
  ResourceAccess.get_combined_privilege db r u <= p.
Proof.
  unfold ResourceAccess.get_combined_privilege. intros -> [Hp|Hp].
  - apply user_priv_rows_spec in Hp.
    destruct (aggregate_Min (ResourceAccess.user_priv_rows db r u)) as [a|] eqn:Ea.
    + apply aggregate_Min_some in Ea. destruct Ea as [_ Ea]. specialize (Ea p Hp). lia.
    + apply aggregate_Min_none in Ea. rewrite Ea in Hp. contradiction.
  - apply group_priv_rows_spec in Hp.
    destruct (aggregate_Min (ResourceAccess.group_priv_rows db r u)) as [b|] eqn:Eb.
    + apply aggregate_Min_some in Eb. destruct Eb as [_ Eb]. specialize (Eb p Hp). lia.
    + apply aggregate_Min_none in Eb. rewrite Eb in Hp. contradiction.
Qed.

Lemma exists_flat_map {A B} (f : A -> list B) (l : list A) :
  exists_ (flat_map f l) = true <-> exists a b, In a l /\ In b (f a).
Proof.
  split.
  - destruct (flat_map f l) as [|b t] eqn:E; simpl; [discriminate|].
    intros _. assert (Hb : In b (flat_map f l)) by (rewrite E; now left).
    apply in_flat_map in Hb. destruct Hb as [a [Ha Hb]]. now exists a, b.
  - intros [a [b [Ha Hb]]].
    assert (Hin : In b (flat_map f l)) by (apply in_flat_map; now exists a).
    destruct (flat_map f l); [contradiction | reflexivity].
Qed.

Lemma group_grants_lte_spec db self r k :
  exists_ (group_grants_lte db self r k) = true
  <-> exists gr m, In gr (grp db) /\ In m (ugp db)
                   /\ grp_resource gr = r /\ grp_privilege gr <= k
                   /\ ugp_group m = grp_group gr /\ ugp_user m = self.
Proof.
  unfold group_grants_lte. rewrite exists_flat_map. split.
  - intros [gr [x [Hgr Hx]]]. apply filter_In in Hgr. destruct Hgr as [Hgr Hc].
    apply andb_prop in Hc. destruct Hc as [Hr Hp]. apply Nat.eqb_eq in Hr.
    apply Z.leb_le in Hp. apply in_map_iff in Hx. destruct Hx as [m [_ Hm]].
    apply filter_In in Hm. destruct Hm as [Hm Hc]. apply andb_prop in Hc.
    destruct Hc as [Hg Hu]. apply Nat.eqb_eq in Hg, Hu. exists gr, m. auto 10.
  - intros [gr [m (Hgr & Hm & Hr & Hp & Hg & Hu)]]. exists gr, gr. split.
    + apply filter_In. split; [assumption|]. apply Z.leb_le in Hp.
      now rewrite Hr, Hp, Nat.eqb_refl.
    + apply in_map_iff. exists m. split; [reflexivity|]. apply filter_In.
      split; [assumption|]. now rewrite Hg, Hu, !Nat.eqb_refl.
Qed.

Lemma direct_lte_spec db self r k :
  exists_ (filter (fun row => Nat.eqb (urp_resource row) r
                              && (urp_privilege row <=? k)
                              && Nat.eqb (urp_user row) self) (urp db)) = true
  <-> exists row, In row (urp db) /\ urp_resource row = r
                  /\ urp_privilege row <= k /\ urp_user row = self.
Proof.
  rewrite exists_filter_true. split.
  - intros [row [Hin Hc]]. apply andb_prop in Hc. destruct Hc as [Hc Hu].
    apply andb_prop in Hc. destruct Hc as [Hr Hp]. apply Nat.eqb_eq in Hr, Hu.
    apply Z.leb_le in Hp. exists row. auto.
  - intros [row (Hin & Hr & Hp & Hu)]. exists row. split; [assumption|].
    apply Z.leb_le in Hp. now rewrite Hr, Hp, Hu, !Nat.eqb_refl.
Qed.

Lemma holds_at_most db self r k :
  is_active (auth_user db self) = true ->
  is_superuser (auth_user db self) = false ->
  ResourceAccess.get_combined_privilege db r self <= k -> k < NONE ->
  exists_ (filter (fun row => Nat.eqb (urp_resource row) r
                              && (urp_privilege row <=? k)
                              && Nat.eqb (urp_user row) self) (urp db)) = true
  \/ exists_ (group_grants_lte db self r k) = true.
Proof.
  intros Hactive Hsu Hle Hk.
  destruct (combined_le_applicable _ _ _ _ Hsu Hle Hk) as [p [Hp [Hd|Hg]]].
  - left. apply direct_lte_spec. destruct Hd as [row (Hin & Hu & Hr & Hpr & _)].
    exists row. repeat split; try assumption. lia.
  - right. apply group_grants_lte_spec.
    destruct Hg as [gr [m (Hgr & Hm & Hr & Hpr & _ & Hg & Hu & _)]].
    exists gr, m. repeat split; try assumption. lia.
Qed.

Lemma held_at_most db self r k :
  is_active (auth_user db self) = true ->
  is_superuser (auth_user db self) = false ->
  (forall gr, In gr (grp db) -> grp_resource gr = r ->
              ga_active (gaccess db (grp_group gr)) = true) ->
  exists_ (filter (fun row => Nat.eqb (urp_resource row) r
                              && (urp_privilege row <=? k)
                              && Nat.eqb (urp_user row) self) (urp db)) = true
  \/ exists_ (group_grants_lte db self r k) = true ->
  ResourceAccess.get_combined_privilege db r self <= k.
Proof.
  intros Hactive Hsu Hgroups [Hd|Hg].
  - apply direct_lte_spec in Hd. destruct Hd as [row (Hin & Hr & Hp & Hu)].
    assert (H : ResourceAccess.get_combined_privilege db r self <= urp_privilege row).
    { apply applicable_combined_le; [assumption|]. left. exists row. auto. }
    lia.
  - apply group_grants_lte_spec in Hg.
    destruct Hg as [gr [m (Hgr & Hm & Hr & Hp & Hg & Hu)]].
    assert (H : ResourceAccess.get_combined_privilege db r self <= grp_privilege gr).
    { apply applicable_combined_le; [assumption|]. right. exists gr, m.
      repeat split; auto. }
    lia.
Qed.

(** X18.  For an active user, [can_view_resource] and
    [can_change_resource] answer [True] whenever the effective privilege
    is VIEW or better, respectively CHANGE or better; and when every group
    with a grant over the resource is active they answer [True] only
    then. *)
Theorem view_and_change_against_effective_privilege (db : DB) (self r : nat)
    (Hactive : is_active (auth_user db self) = true) :
  (ResourceAccess.get_effective_privilege db r self <= VIEW ->
   can_view_resource db self r = true) /\
  (ResourceAccess.get_effective_privilege db r self <= CHANGE ->
   can_change_resource db self r = true) /\
  ((forall gr, In gr (grp db) -> grp_resource gr = r ->
               ga_active (gaccess db (grp_group gr)) = true) ->
   (can_view_resource db self r = true ->
    ResourceAccess.get_effective_privilege db r self <= VIEW) /\
   (can_change_resource db self r = true ->
    ResourceAccess.get_effective_privilege db r self <= CHANGE)).
Proof.
  unfold ResourceAccess.get_effective_privilege, can_view_resource, can_change_resource.
  rewrite Hactive. cbn [negb].
  destruct (is_superuser (auth_user db self)) eqn:Hsu.
  - assert (Hown : ResourceAccess.get_combined_privilege db r self = OWNER)
      by (unfold ResourceAccess.get_combined_privilege; now rewrite Hsu).
    rewrite Hown.
    destruct (ra_immutable (raccess db r)), (ra_public (raccess db r));
      unfold OWNER, CHANGE, VIEW; repeat split; intros; try reflexivity;
      try discriminate; lia.
  - split; [|split].
    + destruct (ra_public (raccess db r)); [reflexivity|]. intros Hle.
      assert (Hc : ResourceAccess.get_combined_privilege db r self <= VIEW)
        by (destruct (ra_immutable (raccess db r)); unfold VIEW in *; lia).
      destruct (holds_at_most _ _ _ _ Hactive Hsu Hc) as [-> | H];
        [unfold VIEW, NONE; lia | reflexivity|].
      rewrite H. now destruct (exists_ (filter _ (urp db))).
    + destruct (ra_immutable (raccess db r)).
      { destruct (ra_public (raccess db r)); unfold CHANGE, VIEW; lia. }
      intros Hle.
      assert (Hc : ResourceAccess.get_combined_privilege db r self <= CHANGE)
        by (destruct (ra_public (raccess db r)); unfold CHANGE, VIEW in *; lia).
      destruct (holds_at_most _ _ _ _ Hactive Hsu Hc) as [-> | H];
        [unfold CHANGE, NONE; lia | reflexivity|].
      rewrite H. now destruct (exists_ (filter _ (urp db))).
    + intros Hgroups. split.
      * destruct (ra_public (raccess db r)).
        { intros _. destruct (ra_immutable (raccess db r)); unfold VIEW; lia. }
        intros Hcan.
        assert (Hc : ResourceAccess.get_combined_privilege db r self <= VIEW).
        { apply held_at_most; try assumption.
          destruct (exists_ (filter _ (urp db))); [now left|].
          destruct (exists_ (group_grants_lte db self r VIEW)); [now right|].
          discriminate. }
        destruct (ra_immutable (raccess db r)); unfold VIEW in *; lia.
      * destruct (ra_immutable (raccess db r)); [discriminate|].
        intros Hcan.
        assert (Hc : ResourceAccess.get_combined_privilege db r self <= CHANGE).
        { apply held_at_most; try assumption.
          destruct (exists_ (filter _ (urp db))); [now left|].
          destruct (exists_ (group_grants_lte db self r CHANGE)); [now right|].
          discriminate. }
        destruct (ra_public (raccess db r)); unfold CHANGE, VIEW in *; lia.
Qed.

Lemma view_and_change_against_effective_privilege_witness :
  can_change_resource change_holders_db bob res = true.
Proof.
  apply (view_and_change_against_effective_privilege change_holders_db bob res).
  - reflexivity.
  - unfold CHANGE. vm_compute. discriminate.
Defined.

(** ** Listings of owned and editable objects *)

(** X19.  The listings of owned objects agree with the ownership
    predicates: a resource is listed by [get_owned_resources] exactly when
    [owns_resource] holds, a group is listed by [get_owned_groups] and is
    active exactly when [owns_group] holds, neither listing repeats an
    object, and the two counts are the lengths of the listings. *)
Theorem owned_listings_against_owns (db : DB) (self o : nat) :
  (In o (get_owned_resources db self) <-> owns_resource db self o = true) /\
  (In o (get_owned_groups db self) /\ ga_active (gaccess db o) = true
   <-> owns_group db self o = true) /\
  NoDup (get_owned_resources db self) /\
  NoDup (get_owned_groups db self) /\
  get_number_of_owned_resources db self
  = Z.of_nat (List.length (get_owned_resources db self)) /\
  get_number_of_owned_groups db self
  = Z.of_nat (List.length (get_owned_groups db self)).
Proof.
  split; [|split; [|split; [|split; [|split]]]].
  - rewrite owns_resource_spec. unfold get_owned_resources, owner_grant_resource.
    rewrite distinct_In, in_map_iff. split.
    + intros [row [Hr Hin]]. apply filter_In in Hin. destruct Hin as [Hin Hc].
      apply andb_prop in Hc. destruct Hc as [Hu Hp]. apply Nat.eqb_eq in Hu.
      apply Z.eqb_eq in Hp. exists row. auto.
    + intros [row (Hin & Hr & Hu & Hp)]. exists row. split; [assumption|].
      apply filter_In. split; [assumption|]. now rewrite Hu, Hp, Nat.eqb_refl.
  - rewrite owns_group_spec. unfold get_owned_groups, owner_grant_group.
    rewrite distinct_In, in_map_iff. split.
    + intros [[row [Hr Hin]] Ha]. apply filter_In in Hin. destruct Hin as [Hin Hc].
      apply andb_prop in Hc. destruct Hc as [Hu Hp]. apply Nat.eqb_eq in Hu.
      apply Z.eqb_eq in Hp. split; [|assumption]. exists row. auto.
    + intros [[row (Hin & Hr & Hu & Hp)] Ha]. split; [|assumption].
      exists row. split; [assumption|].
      apply filter_In. split; [assumption|]. now rewrite Hu, Hp, Nat.eqb_refl.
  - apply NoDup_nodup.
  - apply NoDup_nodup.
  - reflexivity.
  - reflexivity.
Qed.

(** X20.  A resource that [get_resources_with_explicit_access] lists for
    a level is mutable, the user has a grant row over it at that level and
    none at a stronger one, so that it is listed for no other level; listed
    for OWNER or CHANGE it is among the user's editable resources, and an
    active user can change it. *)
Theorem explicit_access_levels (db : DB) (self r : nat) (p q : Z)
    (Hlisted : In r (get_resources_with_explicit_access db self p)) :
  ra_immutable (raccess db r) = false /\
  (exists row, In row (urp db) /\ urp_user row = self /\ urp_resource row = r
               /\ urp_privilege row = p) /\
  (forall row, In row (urp db) -> urp_user row = self -> urp_resource row = r ->
               p <= urp_privilege row) /\
  (In r (get_resources_with_explicit_access db self q) -> p = q) /\
  (p <= CHANGE -> In r (get_editable_resources db self)) /\
  (p <= CHANGE -> is_active (auth_user db self) = true ->
   can_change_resource db self r = true).
Proof.
  assert (Hshape : forall k, In r (get_resources_with_explicit_access db self k) ->
            ra_immutable (raccess db r) = false /\
            (exists row, In row (urp db) /\ urp_user row = self /\ urp_resource row = r
                         /\ urp_privilege row = k) /\
            (forall row, In row (urp db) -> urp_user row = self ->
                         urp_resource row = r -> k <= urp_privilege row)).
  { intros k Hk. unfold get_resources_with_explicit_access in Hk.
    rewrite distinct_In in Hk. apply in_exclude in Hk. destruct Hk as [Hin Hnone].
    apply in_map_iff in Hin. destruct Hin as [row [Hr Hin]].
    apply filter_In in Hin. destruct Hin as [Hin Hc].
    apply andb_prop in Hc. destruct Hc as [Hc Hp]. apply andb_prop in Hc.
    destruct Hc as [Him Hu]. apply Nat.eqb_eq in Hu. apply Z.eqb_eq in Hp.
    apply negb_true_iff in Him. rewrite Hr in Him.
    split; [exact Him|]. split; [exists row; auto|].
    intros row' Hin' Hu' Hr'. apply contains_false in Hnone.
    destruct (Z.lt_ge_cases (urp_privilege row') k) as [Hlt|Hge]; [|exact Hge].
    exfalso. apply Hnone. apply in_map_iff. exists row'. split; [assumption|].
    apply filter_In. split; [assumption|].
    apply Z.ltb_lt in Hlt. now rewrite Hu', Hlt, Nat.eqb_refl. }
  destruct (Hshape p Hlisted) as (Him & [row (Hin & Hu & Hr & Hp)] & Hmin).
  split; [exact Him|]. split; [exists row; auto|]. split; [exact Hmin|].
  split; [|split].
  - intros Hq. destruct (Hshape q Hq) as (_ & [row' (Hin' & Hu' & Hr' & Hp')] & Hmin').
    specialize (Hmin row' Hin' Hu' Hr'). specialize (Hmin' row Hin Hu Hr). lia.
  - intros Hle. unfold get_editable_resources. rewrite distinct_In.
    apply in_map_iff. exists row. split; [assumption|].
    apply filter_In. split; [assumption|].
    rewrite Hr, Him, Hu, Nat.eqb_refl. cbn [negb andb]. apply Z.leb_le. lia.
  - intros Hle Hactive. unfold can_change_resource. rewrite Hactive, Him. cbn [negb].
    destruct (is_superuser (auth_user db self)); [reflexivity|].
    assert (Hd : exists_ (filter (fun row => Nat.eqb (urp_resource row) r
                                             && (urp_privilege row <=? CHANGE)
                                             && Nat.eqb (urp_user row) self) (urp db))
                 = true).
    { apply direct_lte_spec. exists row. repeat split; try assumption. lia. }
    now rewrite Hd.
Qed.

Lemma explicit_access_levels_witness :
  ra_immutable (raccess change_holders_db res) = false.
Proof.
  apply (explicit_access_levels change_holders_db bob res CHANGE VIEW).
  simpl. tauto.
Defined.

(** ** Counting owners *)

Lemma count_zero_nil {A} (l : list A) : count l = 0 <-> l = [].
Proof.
  unfold count. destruct l; simpl; split; try reflexivity; try discriminate;
    intros H; lia.
Qed.

Lemma distinct_nil (l : list nat) : distinct l = [] <-> l = [].
Proof.
  split; [|intros ->; reflexivity].
  destruct l as [|a l]; [reflexivity|]. intros H.
  assert (Ha : In a (distinct (a :: l))) by (apply distinct_In; now left).
  rewrite H in Ha. contradiction.
Qed.

(** X21.  Counting owners.  A group's number of owners counts distinct
    users, so it is at most its number of OWNER rows; a resource's number
    of owners is its number of OWNER rows, a user with OWNER rows from two
    grantors counting twice; either count is zero exactly when no OWNER
    grant exists. *)
Theorem number_of_owners_counts (db : DB) (o : nat) :
  GroupAccess.get_number_of_owners db o <= GroupAccess.get_number_of_owner_records db o /\
  (GroupAccess.get_number_of_owners db o = 0 <-> ~ exists u, owner_grant_group db u o) /\
  ResourceAccess.get_number_of_owners db o
  = ResourceAccess.get_number_of_owner_records db o /\
  (ResourceAccess.get_number_of_owners db o = 0
   <-> ~ exists u, owner_grant_resource db u o).
Proof.
  split; [|split; [|split]].
  - unfold GroupAccess.get_number_of_owners, GroupAccess.get_owners,
      GroupAccess.get_number_of_owner_records, count, distinct.
    apply inj_le.
    etransitivity; [apply NoDup_incl_length; [apply NoDup_nodup|]|].
    + intros x Hx. apply nodup_In in Hx. exact Hx.
    + now rewrite length_map.
  - unfold GroupAccess.get_number_of_owners, GroupAccess.get_owners.
    rewrite count_zero_nil, distinct_nil. split.
    + intros Hnil [u [row (Hin & Hg & Hu & Hp)]].
      assert (Hrow : In (ugp_user row)
                (map ugp_user (filter (fun r => Nat.eqb (ugp_group r) o
                                                && (ugp_privilege r =? OWNER)) (ugp db)))).
      { apply in_map. apply filter_In. split; [assumption|].
        now rewrite Hg, Hp, Nat.eqb_refl. }
      rewrite Hnil in Hrow. contradiction.
    + intros Hno.
      destruct (filter _ (ugp db)) as [|row t] eqn:E; [reflexivity|].
      exfalso. apply Hno.
      assert (Hrow : In row (row :: t)) by now left. rewrite <- E in Hrow.
      apply filter_In in Hrow. destruct Hrow as [Hin Hc]. apply andb_prop in Hc.
      destruct Hc as [Hg Hp]. apply Nat.eqb_eq in Hg. apply Z.eqb_eq in Hp.
      exists (ugp_user row), row. auto.
  - unfold ResourceAccess.get_number_of_owners, ResourceAccess.get_owners,
      ResourceAccess.get_number_of_owner_records, count.
    rewrite length_map. do 2 f_equal. apply filter_ext. intros row. apply andb_comm.
  - unfold ResourceAccess.get_number_of_owners, ResourceAccess.get_owners.
    rewrite count_zero_nil. split.
    + intros Hnil [u [row (Hin & Hr & Hu & Hp)]].
      assert (Hrow : In (urp_user row)
                (map urp_user (filter (fun r => (urp_privilege r =? OWNER)
                                                && Nat.eqb (urp_resource r) o) (urp db)))).
      { apply in_map. apply filter_In. split; [assumption|].
        now rewrite Hr, Hp, Nat.eqb_refl. }
      rewrite Hnil in Hrow. contradiction.
    + intros Hno.
      destruct (filter _ (urp db)) as [|row t] eqn:E; [reflexivity|].
      exfalso. apply Hno.
      assert (Hrow : In row (row :: t)) by now left. rewrite <- E in Hrow.
      apply filter_In in Hrow. destruct Hrow as [Hin Hc]. apply andb_prop in Hc.
      destruct Hc as [Hp Hr]. apply Nat.eqb_eq in Hr. apply Z.eqb_eq in Hp.
      exists (urp_user row), row. auto.
Qed.

(** ** Holders *)

(** X22.  Whoever has a combined privilege of VIEW or better over a
    resource without being a superuser is among its holders, and so is
    every user with a grant row over it. *)
Theorem privileged_users_are_holders (db : DB) (r u : nat) :
  (is_superuser (auth_user db u) = false ->
   ResourceAccess.get_combined_privilege db r u <= VIEW ->
   In u (ResourceAccess.get_holders db r)) /\
  (In u (ResourceAccess.holding_users db r) -> In u (ResourceAccess.get_holders db r)).
Proof.
  unfold ResourceAccess.get_holders. split.
  - intros Hsu Hle.
    destruct (combined_le_applicable db r u VIEW Hsu Hle) as [p [_ [Hd|Hg]]];
      [unfold VIEW, NONE; lia | |]; apply distinct_In, in_or_app.
    + left. destruct Hd as [row (Hin & Hu & Hr & _)]. apply in_map_iff.
      exists row. split; [assumption|]. apply filter_In. split; [assumption|].
      now rewrite Hr, Nat.eqb_refl.
    + right. destruct Hg as [gr [m (Hgr & Hm & Hr & _ & _ & Hg & Hu & _)]].
      apply in_map_iff. exists m. split; [assumption|].
      apply filter_In. split; [assumption|]. apply exists_filter_true.
      exists gr. split; [assumption|]. now rewrite Hg, Hr, !Nat.eqb_refl.
  - unfold ResourceAccess.holding_users. rewrite !distinct_In. intros Hin.
    apply in_or_app. now left.
Qed.

Lemma privileged_users_are_holders_witness :
  In bob (ResourceAccess.get_holders change_holders_db res).
Proof.
  apply (proj1 (privileged_users_are_holders change_holders_db res bob)).
  - reflexivity.
  - vm_compute. discriminate.
Defined.

(** ** The users a caller could unshare *)

Lemma combined_ge_owner db r u :
  stored_privileges_valid db -> OWNER <= ResourceAccess.get_combined_privilege db r u.
Proof.
  intros (Hu & Hg & _). unfold ResourceAccess.get_combined_privilege.
  destruct (is_superuser (auth_user db u)); [lia|].
  assert (Ha : forall a, In a (ResourceAccess.user_priv_rows db r u) -> OWNER <= a).
  { intros a Hin. apply user_priv_rows_spec in Hin.
    destruct Hin as [row (Hin & _ & _ & Hp & _)]. specialize (Hu row Hin).
    rewrite Hp in Hu. unfold PRIVILEGE_CHOICES in Hu. simpl in Hu.
    unfold OWNER, CHANGE, VIEW in *. lia. }
  assert (Hb : forall b, In b (ResourceAccess.group_priv_rows db r u) -> OWNER <= b).
  { intros b Hin. apply group_priv_rows_spec in Hin.
    destruct Hin as [gr [m (Hin & _ & _ & Hp & _)]]. specialize (Hg gr Hin).
    rewrite Hp in Hg. unfold PRIVILEGE_CHOICES in Hg. simpl in Hg.
    unfold OWNER, CHANGE, VIEW in *. lia. }
  destruct (aggregate_Min (ResourceAccess.user_priv_rows db r u)) as [a|] eqn:Ea;
    destruct (aggregate_Min (ResourceAccess.group_priv_rows db r u)) as [b|] eqn:Eb;
    try (apply aggregate_Min_some in Ea; destruct Ea as [Ea _]; apply Ha in Ea);
    try (apply aggregate_Min_some in Eb; destruct Eb as [Eb _]; apply Hb in Eb);
    unfold OWNER, NONE in *; lia.
Qed.

Lemma active_owner_combined db r u :
  stored_privileges_valid db ->
  is_active (auth_user db u) = true ->
  owns_resource db u r = true ->
  ResourceAccess.get_combined_privilege db r u = OWNER.
Proof.
  intros Hvalid Hactive Hown.
  pose proof (combined_ge_owner db r u Hvalid) as Hge.
  destruct (is_superuser (auth_user db u)) eqn:Hsu.
  - unfold ResourceAccess.get_combined_privilege. now rewrite Hsu.
  - apply owns_resource_spec in Hown. destruct Hown as [row (Hin & Hr & Hu & Hp)].
    assert (Hle : ResourceAccess.get_combined_privilege db r u <= OWNER).
    { apply applicable_combined_le; [assumption|]. left. exists row. auto. }
    lia.
Qed.

Lemma single_owner_row db r :
  ResourceAccess.get_number_of_owners db r = 1 ->
  exists row, In row (urp db) /\ urp_resource row = r /\ urp_privilege row = OWNER.
Proof.
  unfold ResourceAccess.get_number_of_owners, ResourceAccess.get_owners, count.
  rewrite length_map.
  destruct (filter _ (urp db)) as [|row t] eqn:E; simpl; [discriminate|].
  intros _. assert (Hrow : In row (row :: t)) by now left. rewrite <- E in Hrow.
  apply filter_In in Hrow. destruct Hrow as [Hin Hc]. apply andb_prop in Hc.
  destruct Hc as [Hp Hr]. apply Nat.eqb_eq in Hr. apply Z.eqb_eq in Hp.
  exists row. auto.
Qed.

Lemma other_owner_exists db r u row :
  In row (urp db) -> urp_resource row = r -> urp_privilege row = OWNER ->
  urp_user row <> u ->
  exists_ (exclude (fun r0 => Nat.eqb (urp_user r0) u)
             (filter (fun r0 => Nat.eqb (urp_resource r0) r
                                && (urp_privilege r0 =? OWNER)) (urp db))) = true.
Proof.
  intros Hin Hr Hp Hne. unfold exclude. apply exists_filter_true.
  exists row. split.
  - apply filter_In. split; [assumption|]. now rewrite Hr, Hp, Nat.eqb_refl.
  - apply Nat.eqb_neq in Hne. now rewrite Hne.
Qed.

Lemma contains_across_models_false (x : nat) (l : list nat) :
  contains_across_models x l = false.
Proof. induction l as [|a l IH]; [reflexivity | exact IH]. Qed.

(** X23.  When a resource has exactly one OWNER row, every user that
    [get_resource_unshare_users] lists for an active caller can be
    unshared by that caller, and the owner is not listed. *)
Theorem listed_users_can_be_unshared (db : DB) (self r u : nat) (l : list nat)
    (Hvalid : stored_privileges_valid db)
    (Hactive : is_active (auth_user db self) = true)
    (Hsingle : ResourceAccess.get_number_of_owners db r = 1)
    (Hlist : get_resource_unshare_users db self r = Return l)
    (Hlisted : In u l) :
  can_unshare_resource_with_user self r u db = (Return true, db) /\
  owns_resource db u r = false.
Proof.
  destruct (single_owner_row db r Hsingle) as [orow (Hoin & Hor & Hop)].
  unfold get_resource_unshare_users in Hlist. rewrite Hactive, Hsingle in Hlist.
  cbn [negb] in Hlist. replace (1 =? 1) with true in Hlist by reflexivity.
  unfold can_unshare_resource_with_user, __handle_unshare_resource_with_user. norm_all.
  destruct (is_superuser (auth_user db self) || owns_resource db self r) eqn:Hwho.
  - injection Hlist as <-. apply in_exclude in Hlisted.
    destruct Hlisted as [Hholds Hnot]. apply contains_false in Hnot.
    rewrite distinct_In in Hnot.
    assert (Hu : contains u (ResourceAccess.holding_users db r) = true).
    { apply contains_In. unfold ResourceAccess.holding_users. rewrite distinct_In.
      exact Hholds. }
    assert (Hnotowner : owns_resource db u r = false).
    { destruct (owns_resource db u r) eqn:E; [|reflexivity]. exfalso. apply Hnot.
      apply owns_resource_spec in E. destruct E as [row (Hin & Hr & Hu' & Hp)].
      apply in_map_iff. exists row. split; [assumption|]. apply filter_In.
      split; [assumption|]. now rewrite Hr, Hp, Nat.eqb_refl. }
    split; [|exact Hnotowner]. rewrite Hu. cbn [negb].
    assert (Hauth : is_superuser (auth_user db self)
                    || (ResourceAccess.get_combined_privilege db r self =? OWNER)
                    || Nat.eqb u self = true).
    { apply orb_true_iff in Hwho. destruct Hwho as [-> | Hown]; [reflexivity|].
      rewrite (active_owner_combined db r self Hvalid Hactive Hown).
      replace (OWNER =? OWNER) with true by reflexivity. now rewrite orb_true_r. }
    rewrite Hauth.
    rewrite (other_owner_exists db r u orow Hoin Hor Hop); [reflexivity|].
    intros Heq. apply Hnot. apply in_map_iff. exists orow. split; [assumption|].
    apply filter_In. split; [assumption|]. now rewrite Hor, Hop, Nat.eqb_refl.
  - rewrite contains_across_models_false in Hlist.
    injection Hlist as <-. contradiction.
Qed.

Lemma listed_users_can_be_unshared_witness :
  can_unshare_resource_with_user alice res bob change_holders_db
  = (Return true, change_holders_db).
Proof.
  apply (listed_users_can_be_unshared change_holders_db alice res bob [bob; carol]).
  - unfold stored_privileges_valid; simpl.
    repeat split; intros row H; repeat (destruct H as [<-|H]; [simpl; tauto|]);
      contradiction.
  - reflexivity.
  - reflexivity.
  - reflexivity.
  - simpl. tauto.
Defined.

(** ** Taking a resource back from a group *)

(** X24.  [undo_share_resource_with_group] never removes a grant.  It is
    refused to a caller who is neither an owner of the resource nor a
    superuser, even for the caller's own grant; for an owner or a
    superuser the action and its predicate raise ValueError, at the lookup
    of the grant under [grantor=], and change nothing. *)
Theorem undo_share_resource_with_group_behaviour
    (db : DB) (self r g : nat) (grantor : option nat) :
  (owns_resource db self r = false -> is_superuser (auth_user db self) = false ->
   undo_share_resource_with_group self r g grantor db
   = (Raise (PermissionDenied "Self must be owner or admin"), db)) /\
  (owns_resource db self r = true \/ is_superuser (auth_user db self) = true ->
   undo_share_resource_with_group self r g grantor db = (Raise ValueError, db) /\
   can_undo_share_resource_with_group self r g grantor db = (Raise ValueError, db)).
Proof.
  unfold undo_share_resource_with_group, can_undo_share_resource_with_group,
    __handle_undo_share_resource_with_group.
  norm_all. split.
  - intros -> ->. reflexivity.
  - intros [-> | ->]; rewrite ?andb_false_r; split; reflexivity.
Qed.

Lemma undo_share_resource_with_group_behaviour_witness :
  undo_share_resource_with_group bob res group1 None group_holds_resource_db
  = (Raise (PermissionDenied "Self must be owner or admin"), group_holds_resource_db)
  /\ undo_share_resource_with_group alice res group1 None group_holds_resource_db
     = (Raise ValueError, group_holds_resource_db).
Proof.
  split.
  - apply (proj1 (undo_share_resource_with_group_behaviour
                    group_holds_resource_db bob res group1 None)); reflexivity.
  - apply (proj2 (undo_share_resource_with_group_behaviour
                    group_holds_resource_db alice res group1 None)).
    left. reflexivity.
Defined.

(** X25.  When [unshare_resource_with_group] completes, every grant row of
    the group over the resource is gone, whoever granted it, and nothing
    else has changed; the group no longer holds the resource, its privilege
    over it is NONE, and a second unshare is refused. *)
Theorem unshare_resource_with_group_removes_access (db db' : DB) (self r g : nat) :
  unshare_resource_with_group self r g db = (Return true, db') ->
  grp db' = exclude (fun row => Nat.eqb (grp_resource row) r
                                && Nat.eqb (grp_group row) g) (grp db) /\
  ugp db' = ugp db /\ urp db' = urp db /\
  contains g (ResourceAccess.holding_groups db' r) = false /\
  ResourceAccess.get_group_privilege db' r g = NONE /\
  unshare_resource_with_group self r g db'
  = (Raise (PermissionDenied "Group does not have access to resource"), db').
Proof.
  unfold unshare_resource_with_group at 1, __handle_unshare_resource_with_group.
  norm_all.
  repeat (break_all; try discriminate).
  intros [= <-]. cbn [grp ugp urp set_grp].
  assert (Hnot : contains g
            (ResourceAccess.holding_groups
               (set_grp (exclude (fun row => Nat.eqb (grp_resource row) r
                                             && Nat.eqb (grp_group row) g) (grp db)) db) r)
          = false).
  { apply contains_false. unfold ResourceAccess.holding_groups. rewrite distinct_In.
    cbn [grp set_grp]. intros Hin. apply in_map_iff in Hin.
    destruct Hin as [row [Hg Hin]]. apply filter_In in Hin. destruct Hin as [Hin Hr].
    apply in_exclude in Hin. destruct Hin as [_ Hc].
    rewrite Hr, Hg, Nat.eqb_refl in Hc. discriminate. }
  repeat (split; [reflexivity|]). split; [exact Hnot|]. split.
  - unfold ResourceAccess.get_group_privilege. cbn [grp set_grp gaccess].
    replace (filter _ (exclude _ (grp db))) with (@nil GroupResourcePrivilege);
      [reflexivity|].
    symmetry. apply filter_exclude_disjoint. intros x Hx.
    apply andb_prop in Hx. destruct Hx as [Hx Hr]. apply andb_prop in Hx.
    destruct Hx as [Hg _]. now rewrite Hr, Hg.
  - unfold unshare_resource_with_group, __handle_unshare_resource_with_group.
    norm_all. rewrite Hnot. reflexivity.
Qed.

Lemma unshare_resource_with_group_removes_access_witness :
  ResourceAccess.get_group_privilege
    (after (unshare_resource_with_group alice res group1) group_holds_resource_db)
    res group1 = NONE.
Proof.
  apply (unshare_resource_with_group_removes_access
           group_holds_resource_db _ alice res group1).
  reflexivity.
Defined.

(** ** The users whose share a caller could undo *)

(** X26.  [get_resource_undo_users] answers only an active owner of the
    resource or an active superuser: for any other caller it raises
    ValueError, at the lookup of the caller's grants under [grantor=].
    Every user it lists holds a grant over the resource, and when the
    resource has at most one OWNER row no listed user is an owner. *)
Theorem listed_undo_users (db : DB) (self r : nat) :
  (is_active (auth_user db self)
   && (is_superuser (auth_user db self) || owns_resource db self r) = false ->
   get_resource_undo_users db self r = Raise ValueError) /\
  (forall l u,
     get_resource_undo_users db self r = Return l -> In u l ->
     In u (ResourceAccess.holding_users db r) /\
     ((ResourceAccess.get_number_of_owners db r >? 1) = false ->
      owns_resource db u r = false)).
Proof.
  unfold get_resource_undo_users, lookup_grantor_User.
  destruct (is_active (auth_user db self)
            && (is_superuser (auth_user db self) || owns_resource db self r)).
  - split; [discriminate|]. intros l u Hlist Hlisted.
    unfold ResourceAccess.holding_users. rewrite distinct_In.
    destruct (ResourceAccess.get_number_of_owners db r >? 1);
      injection Hlist as <-.
    + split; [exact Hlisted | discriminate].
    + apply in_exclude in Hlisted. destruct Hlisted as [Hin Hnot].
      apply filter_In in Hin. split; [tauto|]. intros _.
      apply contains_false in Hnot. rewrite distinct_In in Hnot.
      destruct (owns_resource db u r) eqn:E; [|reflexivity]. exfalso. apply Hnot.
      apply owns_resource_spec in E. destruct E as [row (Hrow & Hr & Hu & Hp)].
      apply in_map_iff. exists row. split; [assumption|]. apply filter_In.
      split; [assumption|]. now rewrite Hr, Hp, Nat.eqb_refl.
  - split; [|discriminate || (intros l u Hlist; exfalso; revert Hlist;
                              destruct (_ >? 1); discriminate)].
    intros _. now destruct (_ >? 1).
Qed.

Lemma listed_undo_users_witness :
  get_resource_undo_users change_holders_db bob res = Raise ValueError.
Proof.
  apply (proj1 (listed_undo_users change_holders_db bob res)). reflexivity.
Defined.

(** ** What a group share gives the grantee *)

Lemma share_group_with_user_row db self g u p db' :
  share_group_with_user self g u p db = (Return tt, db') ->
  In (mkUGP p u g self) (ugp db').
Proof.
  intros Hshare.
  destruct (share_group_with_user_returns _ _ _ _ _ _ Hshare)
    as (record & t & Hf & -> & _ & Hugp).
  set (t := map _ (ugp db)) in *.
  assert (Hin : In (mkUGP p u g self) t).
  { assert (Hrec : In record (filter (fun row => Nat.eqb (ugp_group row) g
                        && Nat.eqb (ugp_user row) u
                        && Nat.eqb (ugp_grantor row) self) (ugp db)))
      by (rewrite Hf; now left).
    apply filter_In in Hrec. destruct Hrec as [Hin Hc].
    apply andb_prop in Hc. destruct Hc as [Hc Hg]. apply andb_prop in Hc.
    destruct Hc as [Hgr Hu]. apply Nat.eqb_eq in Hgr, Hu, Hg.
    apply in_map_iff. exists record. split; [|exact Hin].
    rewrite !Nat.eqb_refl. simpl. now rewrite Hgr, Hu, Hg. }
  rewrite Hugp. destruct (_ || _); [|exact Hin].
  apply in_exclude. split; [exact Hin|]. simpl.
  rewrite Z.ltb_irrefl. apply andb_false_r.
Qed.

Lemma share_group_with_user_frame db self g u p db' :
  share_group_with_user self g u p db = (Return tt, db') ->
  auth_user db' = auth_user db /\ gaccess db' = gaccess db.
Proof.
  unfold share_group_with_user. norm.
  repeat (break_step; try discriminate); intros [= <-]; split; reflexivity.
Qed.

(** X27.  A group share that completes leaves the caller's membership
    grant to the grantee at the level asked: the grantee is a member, and
    an active grantee can view the group when the level is VIEW or better
    and change it, the group being active, when the level is CHANGE or
    better. *)
Theorem share_group_with_user_grants (db db' : DB) (self g u : nat) (p : Z) :
  share_group_with_user self g u p db = (Return tt, db') ->
  In (mkUGP p u g self) (ugp db') /\
  contains u (GroupAccess.members db' g) = true /\
  (is_active (auth_user db u) = true -> p <= VIEW ->
   can_view_group db' u g = true) /\
  (is_active (auth_user db u) = true -> ga_active (gaccess db g) = true ->
   p <= CHANGE -> can_change_group db' u g = true).
Proof.
  intros Hshare. pose proof (share_group_with_user_row _ _ _ _ _ _ Hshare) as Hrow.
  destruct (share_group_with_user_frame _ _ _ _ _ _ Hshare) as [Haux Hga].
  assert (Hle : forall k, p <= k ->
            exists_ (filter (fun r => Nat.eqb (ugp_group r) g
                                      && (ugp_privilege r <=? k)
                                      && Nat.eqb (ugp_user r) u) (ugp db')) = true).
  { intros k Hk. apply exists_filter_true. exists (mkUGP p u g self).
    split; [exact Hrow|]. simpl. apply Z.leb_le in Hk.
    now rewrite Hk, !Nat.eqb_refl. }
  split; [exact Hrow|]. split; [|split].
  - apply contains_In. unfold GroupAccess.members. rewrite distinct_In.
    apply in_map_iff. exists (mkUGP p u g self). split; [reflexivity|].
    apply filter_In. split; [exact Hrow|]. simpl. apply Nat.eqb_refl.
  - intros Hactive Hp. unfold can_view_group. rewrite Haux, Hactive. cbn [negb].
    destruct (_ || _); [reflexivity|]. now rewrite (Hle VIEW Hp).
  - intros Hactive Hgroup Hp. unfold can_change_group.
    rewrite Haux, Hga, Hactive, Hgroup. cbn [negb orb].
    destruct (is_superuser (auth_user db u)); [reflexivity|].
    now rewrite (Hle CHANGE Hp).
Qed.

Lemma share_group_with_user_grants_witness :
  In (mkUGP CHANGE bob group1 alice)
     (ugp (after (share_group_with_user alice group1 bob CHANGE) group_shared_db)).
Proof.
  apply (proj1 (share_group_with_user_grants
                  group_shared_db
                  (after (share_group_with_user alice group1 bob CHANGE) group_shared_db)
                  alice group1 bob CHANGE eq_refl)).
Defined.

(** ** How the predicates order *)

Lemma exists_filter_weaken {A} (p q : A -> bool) (l : list A) :
  exists_ (filter p l) = true ->
  (forall x, p x = true -> q x = true) ->
  exists_ (filter q l) = true.
Proof.
  intros Hp H. apply exists_filter_true in Hp. destruct Hp as [x [Hin Hx]].
  apply exists_filter_true. exists x. auto.
Qed.

(** X28.  A caller who may share an object at a level may share it at
    every weaker level. *)
Theorem can_share_weaker_level (db : DB) (self o : nat) (p q : Z) (Hpq : p <= q) :
  (can_share_resource db self o p = true -> can_share_resource db self o q = true) /\
  (can_share_group db self o p = true -> can_share_group db self o q = true).
Proof.
  split.
  - unfold can_share_resource.
    destruct (negb (is_active (auth_user db self))); [discriminate|].
    destruct (negb _); [discriminate|].
    destruct (_ >? VIEW); [discriminate|].
    destruct (ResourceAccess.get_combined_privilege db o self >? p) eqn:E;
      [discriminate|].
    intros _. rewrite Z.gtb_ltb in E. apply Z.ltb_ge in E.
    replace (ResourceAccess.get_combined_privilege db o self >? q) with false;
      [reflexivity|].
    symmetry. rewrite Z.gtb_ltb. apply Z.ltb_ge. lia.
  - unfold can_share_group.
    destruct (negb (is_active (auth_user db self))); [discriminate|].
    destruct (is_superuser (auth_user db self)); [reflexivity|].
    destruct (_ && _); [discriminate|].
    destruct (exists_ (filter (fun r => Nat.eqb (ugp_group r) o
                                        && Nat.eqb (ugp_user r) self
                                        && (ugp_privilege r <=? p)) (ugp db))) eqn:E;
      [|discriminate].
    intros _.
    rewrite (exists_filter_weaken _ (fun r => Nat.eqb (ugp_group r) o
                                              && Nat.eqb (ugp_user r) self
                                              && (ugp_privilege r <=? q)) _ E);
      [reflexivity|].
    intros x Hx. apply andb_prop in Hx. destruct Hx as [-> Hx].
    apply Z.leb_le in Hx. apply Z.leb_le. lia.
Qed.

Lemma can_share_weaker_level_witness :
  can_share_resource change_holders_db bob res VIEW = true.
Proof.
  apply (proj1 (can_share_weaker_level change_holders_db bob res CHANGE VIEW
                  ltac:(unfold CHANGE, VIEW; lia))).
  reflexivity.
Defined.

(** X29.  The predicates form a hierarchy.  On a group: an active owner
    can change it, whoever can change it can view it, and whoever can view
    it can view its metadata.  On a resource: an active owner can change it
    unless it is immutable, and whoever can change it can view it. *)
Theorem predicate_hierarchy (db : DB) (self o : nat) :
  (is_active (auth_user db self) = true -> owns_group db self o = true ->
   can_change_group db self o = true) /\
  (can_change_group db self o = true -> can_view_group db self o = true) /\
  (can_view_group db self o = true -> can_view_group_metadata db self o = true) /\
  (is_active (auth_user db self) = true -> owns_resource db self o = true ->
   ra_immutable (raccess db o) = false -> can_change_resource db self o = true) /\
  (can_change_resource db self o = true -> can_view_resource db self o = true).
Proof.
  split; [|split; [|split; [|split]]].
  - intros Hactive Hown. unfold owns_group in Hown. unfold can_change_group.
    rewrite Hactive. destruct (ga_active (gaccess db o)); cbn [negb orb] in *;
      [|discriminate].
    destruct (is_superuser (auth_user db self)); [reflexivity|].
    destruct (exists_ (filter (fun r => Nat.eqb (ugp_group r) o
                                        && (ugp_privilege r =? OWNER)
                                        && Nat.eqb (ugp_user r) self) (ugp db))) eqn:E;
      [|discriminate].
    rewrite (exists_filter_weaken _ (fun r => Nat.eqb (ugp_group r) o
                                              && (ugp_privilege r <=? CHANGE)
                                              && Nat.eqb (ugp_user r) self) _ E);
      [reflexivity|].
    intros x Hx. apply andb_prop in Hx. destruct Hx as [Hx ->].
    apply andb_prop in Hx. destruct Hx as [-> Hx]. apply Z.eqb_eq in Hx.
    rewrite Hx. reflexivity.
  - unfold can_change_group, can_view_group.
    destruct (is_active (auth_user db self)); cbn [negb orb]; [|discriminate].
    destruct (negb (ga_active (gaccess db o))); [discriminate|].
    destruct (is_superuser (auth_user db self)); [reflexivity|]. cbn [orb].
    destruct (ga_public (gaccess db o)); [reflexivity|].
    destruct (exists_ (filter (fun r => Nat.eqb (ugp_group r) o
                                        && (ugp_privilege r <=? CHANGE)
                                        && Nat.eqb (ugp_user r) self) (ugp db))) eqn:E;
      [|discriminate].
    rewrite (exists_filter_weaken _ (fun r => Nat.eqb (ugp_group r) o
                                              && (ugp_privilege r <=? VIEW)
                                              && Nat.eqb (ugp_user r) self) _ E);
      [reflexivity|].
    intros x Hx. apply andb_prop in Hx. destruct Hx as [Hx ->].
    apply andb_prop in Hx. destruct Hx as [-> Hx]. apply Z.leb_le in Hx.
    replace (ugp_privilege x <=? VIEW) with true; [reflexivity|].
    symmetry. apply Z.leb_le. unfold CHANGE, VIEW in *. lia.
  - unfold can_view_group_metadata. intros Hview.
    assert (Hactive : is_active (auth_user db self) = true).
    { unfold can_view_group in Hview.
      destruct (is_active (auth_user db self)); [reflexivity | discriminate]. }
    rewrite Hactive. cbn [negb]. destruct (_ || _); [reflexivity | exact Hview].
  - intros Hactive Hown Him. unfold owns_resource in Hown. unfold can_change_resource.
    rewrite Hactive, Him. cbn [negb].
    destruct (is_superuser (auth_user db self)); [reflexivity|].
    destruct (exists_ (filter (fun r => Nat.eqb (urp_resource r) o
                                        && (urp_privilege r =? OWNER)
                                        && Nat.eqb (urp_user r) self) (urp db))) eqn:E;
      [|discriminate].
    rewrite (exists_filter_weaken _ (fun r => Nat.eqb (urp_resource r) o
                                              && (urp_privilege r <=? CHANGE)
                                              && Nat.eqb (urp_user r) self) _ E);
      [reflexivity|].
    intros x Hx. apply andb_prop in Hx. destruct Hx as [Hx ->].
    apply andb_prop in Hx. destruct Hx as [-> Hx]. apply Z.eqb_eq in Hx.
    rewrite Hx. reflexivity.
  - unfold can_change_resource, can_view_resource.
    destruct (negb (is_active (auth_user db self))); [discriminate|].
    destruct (ra_immutable (raccess db o)); [discriminate|].
    destruct (ra_public (raccess db o)); [reflexivity|].
    destruct (is_superuser (auth_user db self)); [reflexivity|].
    destruct (exists_ (filter (fun r => Nat.eqb (urp_resource r) o
                                        && (urp_privilege r <=? CHANGE)
                                        && Nat.eqb (urp_user r) self) (urp db))) eqn:E.
    + rewrite (exists_filter_weaken _ (fun r => Nat.eqb (urp_resource r) o
                                                && (urp_privilege r <=? VIEW)
                                                && Nat.eqb (urp_user r) self) _ E);
        [reflexivity|].
      intros x Hx. apply andb_prop in Hx. destruct Hx as [Hx ->].
      apply andb_prop in Hx. destruct Hx as [-> Hx]. apply Z.leb_le in Hx.
      replace (urp_privilege x <=? VIEW) with true; [reflexivity|].
      symmetry. apply Z.leb_le. unfold CHANGE, VIEW in *. lia.
    + destruct (exists_ (group_grants_lte db self o CHANGE)) eqn:Eg; [|discriminate].
      intros _. apply group_grants_lte_spec in Eg.
      destruct Eg as [gr [m (Hgr & Hm & Hr & Hp & Hg & Hu)]].
      assert (Ev : exists_ (group_grants_lte db self o VIEW) = true).
      { apply group_grants_lte_spec. exists gr, m. repeat split; try assumption.
        unfold CHANGE, VIEW in *. lia. }
      rewrite Ev.
      match goal with |- context [if ?c then _ else _] => destruct c end; reflexivity.
Qed.

Lemma predicate_hierarchy_witness :
  can_view_resource change_holders_db bob res = true.
Proof.
  apply (proj2 (proj2 (proj2 (proj2 (predicate_hierarchy change_holders_db bob res))))).
  reflexivity.
Defined.

(** ** Exceptions and the owner floor of the removals on a resource *)

(** X1.  A share, unshare or undo-share call that raises, whatever the
    exception, leaves the whole database as it was. *)
Theorem raising_call_changes_nothing
    (op : Operation) (db db' : DB) (e : Exception) :
  call op db = (Raise e, db') -> db' = db.
Proof. apply call_raise_unchanged. Qed.

Lemma raising_call_changes_nothing_witness :
  snd (call (UnshareResourceWithUser alice res alice)
            (bootstrap_resource alice res (empty_db [] [])))
  = bootstrap_resource alice res (empty_db [] []).
Proof.
  apply (raising_call_changes_nothing
           (UnshareResourceWithUser alice res alice)
           (bootstrap_resource alice res (empty_db [] [])) _
           (PermissionDenied "Cannot remove sole resource owner")).
  reflexivity.
Defined.

(** X6.  Neither unsharing a resource with a user nor undoing a share of
    it, whether the call completes or is refused, leaves a resource that
    had an owner without one. *)
Theorem resource_removals_keep_owner
    (db : DB) (self r u r' : nat) (grantor : option nat) :
  (exists o, owner_grant_resource db o r') ->
  (exists o, owner_grant_resource
               (after (unshare_resource_with_user self r u) db) o r') /\
  (exists o, owner_grant_resource
               (after (undo_share_resource_with_user self r u grantor) db) o r').
Proof.
  intros H. split.
  - now apply unshare_resource_with_user_keeps_owner.
  - now apply undo_share_resource_with_user_keeps_owner.
Qed.

Lemma resource_removals_keep_owner_witness :
  exists o, owner_grant_resource
              (after (unshare_resource_with_user alice res bob) change_holders_db)
              o res.
Proof.
  apply (resource_removals_keep_owner change_holders_db alice res bob res None).
  exists alice, (mkURP OWNER alice res alice). simpl. tauto.
Defined.

(** ** Bounds of the effective privilege *)

(** X30.  The effective privilege over an immutable resource is never
    better than VIEW, over a public resource never worse than VIEW, and,
    the stored levels being among OWNER, CHANGE and VIEW, it always lies
    between OWNER and NONE. *)
Theorem get_effective_privilege_bounds (db : DB) (r u : nat) :
  (ra_immutable (raccess db r) = true ->
   ra_public (raccess db r) = false ->
   VIEW <= ResourceAccess.get_effective_privilege db r u) /\
  (ra_public (raccess db r) = true ->
   ResourceAccess.get_effective_privilege db r u <= VIEW) /\
  (stored_privileges_valid db ->
   OWNER <= ResourceAccess.get_effective_privilege db r u <= NONE).
Proof.
  unfold ResourceAccess.get_effective_privilege. split; [|split].
  - intros -> ->. lia.
  - intros ->. destruct (ra_immutable (raccess db r)); lia.
  - intros Hvalid. pose proof (combined_ge_owner db r u Hvalid) as Hge.
    assert (Hle : ResourceAccess.get_combined_privilege db r u <= NONE).
    { unfold ResourceAccess.get_combined_privilege.
      destruct (is_superuser (auth_user db u)); [unfold OWNER, NONE; lia|].
      destruct (aggregate_Min (ResourceAccess.user_priv_rows db r u)) as [a|] eqn:Ea;
        [|lia].
      apply aggregate_Min_some in Ea. destruct Ea as [Ea _].
      apply user_priv_rows_spec in Ea. destruct Ea as [row (Hin & _ & _ & Hp & _)].
      destruct Hvalid as (Hu & _ & _). specialize (Hu row Hin). rewrite Hp in Hu.
      unfold PRIVILEGE_CHOICES in Hu. simpl in Hu.
      unfold OWNER, CHANGE, VIEW, NONE in *. lia. }
    destruct (ra_immutable (raccess db r)), (ra_public (raccess db r));
      unfold OWNER, VIEW, NONE in *; lia.
Qed.

Lemma share_resource_with_group_never_owner_witness :
  no_group_owner
    (after (share_resource_with_group alice res group1 CHANGE) group_holds_resource_db).
Proof.
  apply (proj2 (share_resource_with_group_never_owner
                  group_holds_resource_db alice res group1 CHANGE)).
  intros row [<-|[]]. discriminate.
Defined.

Lemma get_effective_privilege_bounds_witness :
  OWNER <= ResourceAccess.get_effective_privilege change_holders_db res bob <= NONE.
Proof.
  apply (proj2 (proj2 (get_effective_privilege_bounds change_holders_db res bob))).
  unfold stored_privileges_valid; simpl.
  repeat split; intros row H; repeat (destruct H as [<-|H]; [simpl; tauto|]);
    contradiction.
Defined.
